(** * Verification of scripts/validate_skill.py (claude-skill-generator)

    Shallow embedding of the skill validator.  Python [str] values are
    modelled as Rocq [string]s whose characters are read as the code points
    0..255 (Latin-1); whitespace, lower-casing and the regular expressions
    of the source are written out for that range.  Python exceptions are
    made explicit with the [outcome] type. *)

From Stdlib Require Import String Ascii List Bool ZArith Lia DecimalString.
Import ListNotations.
Open Scope string_scope.
Open Scope list_scope.
Open Scope nat_scope.
Set Warnings "-register-all".

(* ------------------------------------------------------------------ *)
(** ** Python string primitives *)

Module Py.

(** Characters for which Python's [str.isspace] holds (and which [\s]
    matches in [re]), restricted to code points below 256. *)
Definition is_space (c : ascii) : bool :=
  let n := nat_of_ascii c in
  ((9 <=? n) && (n <=? 13)) || ((28 <=? n) && (n <=? 32))
  || (n =? 133) || (n =? 160).

Fixpoint lstrip (s : string) : string :=
  match s with
  | EmptyString => EmptyString
  | String c t => if is_space c then lstrip t else s
  end.

Definition rev_str (s : string) : string :=
  string_of_list_ascii (rev (list_ascii_of_string s)).

Definition rstrip (s : string) : string := rev_str (lstrip (rev_str s)).

(** [str.strip()] *)
Definition strip (s : string) : string := rstrip (lstrip s).

(** [s.startswith(p)] *)
Definition startswith (s p : string) : bool := String.prefix p s.

(** [s.endswith(p)] *)
Definition endswith (s p : string) : bool :=
  String.prefix (rev_str p) (rev_str s).

(** [needle in hay] *)
Fixpoint contains (hay needle : string) : bool :=
  String.prefix needle hay ||
  match hay with
  | EmptyString => false
  | String _ t => contains t needle
  end.

(** [c.lower()] for one code point below 256. *)
Definition lower_char (c : ascii) : ascii :=
  let n := nat_of_ascii c in
  if ((65 <=? n) && (n <=? 90)) || ((192 <=? n) && (n <=? 222) && negb (n =? 215))
  then ascii_of_nat (n + 32) else c.

Fixpoint lower (s : string) : string :=
  match s with
  | EmptyString => EmptyString
  | String c t => String (lower_char c) (lower t)
  end.

(** [s.split("\n")]: the pieces between newlines, empty ones kept. *)
Fixpoint split_nl_aux (s : string) (cur : string) : list string :=
  match s with
  | EmptyString => [cur]
  | String c t =>
      if Ascii.eqb c "010"%char then cur :: split_nl_aux t EmptyString
      else split_nl_aux t (cur ++ String c EmptyString)
  end.

Definition split_nl (s : string) : list string := split_nl_aux s EmptyString.

(** ["\n".join(ls)] *)
Definition nl : string := String "010"%char EmptyString.
Definition join_nl (ls : list string) : string := String.concat nl ls.

(** [s.split()] without argument: maximal runs of non-whitespace. *)
Fixpoint split_ws_aux (s : string) (cur : string) : list string :=
  match s with
  | EmptyString => match cur with EmptyString => [] | _ => [cur] end
  | String c t =>
      if is_space c then
        match cur with
        | EmptyString => split_ws_aux t EmptyString
        | _ => cur :: split_ws_aux t EmptyString
        end
      else split_ws_aux t (cur ++ String c EmptyString)
  end.

Definition split_ws (s : string) : list string := split_ws_aux s EmptyString.

(** [s[:n]] *)
Definition slice_to (n : nat) (s : string) : string := substring 0 n s.

(** [s[1:-1]] *)
Definition slice_inner (s : string) : string :=
  substring 1 (String.length s - 2) s.

(** [posixpath.join(a, b)] *)
Definition path_join (a b : string) : string :=
  if startswith b "/" then b
  else if String.eqb a "" || endswith a "/" then a ++ b
  else a ++ "/" ++ b.

End Py.

(* ------------------------------------------------------------------ *)
(** ** Python values produced by the frontmatter parsers *)

(** The values [yaml.safe_load] can build: [None], [bool], [int],
    [float], [str], [bytes] (!!binary), [list], [set] (!!set), [dict]
    and [datetime.date]/[datetime.datetime] (!!timestamp). *)
Inductive pyval : Type :=
| VNone
| VBool (b : bool)
| VInt (z : Z)
| VFloat (is_zero : bool)
| VStr (s : string)
| VBytes (b : string)
| VList (l : list pyval)
| VSet (l : list pyval)
| VDict (d : list (pyval * pyval))
| VDate (with_time : bool).

(** Python truthiness ([bool(v)]).  A float is modelled only by whether it
    compares equal to 0.0. *)
Definition truthy (v : pyval) : bool :=
  match v with
  | VNone => false
  | VBool b => b
  | VInt z => negb (Z.eqb z 0)
  | VFloat z => negb z
  | VStr s => negb (String.eqb s "")
  | VBytes b => negb (String.eqb b "")
  | VList l | VSet l => negb (Nat.eqb (List.length l) 0)
  | VDict d => negb (Nat.eqb (List.length d) 0)
  | VDate _ => true
  end.

(** [type(v).__name__] *)
Definition type_name (v : pyval) : string :=
  match v with
  | VNone => "NoneType" | VBool _ => "bool" | VInt _ => "int"
  | VFloat _ => "float" | VStr _ => "str" | VBytes _ => "bytes"
  | VList _ => "list" | VSet _ => "set" | VDict _ => "dict"
  | VDate false => "date" | VDate true => "datetime"
  end.

Definition is_str (v : pyval) : bool :=
  match v with VStr _ => true | _ => false end.

(** Python exceptions that can escape the validator: a [TypeError], or an
    exception other than [yaml.YAMLError] raised by [yaml.safe_load] while
    it builds a value ([ValueError] on [2024-13-45], [KeyError] on
    [!!bool x], ...), named by its type. *)
Inductive py_exc : Type :=
| TypeError
| LoaderError (exc_type : string).

Inductive outcome (A : Type) : Type :=
| Ok (a : A)
| Raise (e : py_exc).
Arguments Ok {A} a.
Arguments Raise {A} e.

Definition bind {A B} (m : outcome A) (k : A -> outcome B) : outcome B :=
  match m with Ok a => k a | Raise e => Raise e end.

Notation "x <- m ;; k" := (bind m (fun x => k))
  (at level 61, m at next level, right associativity).

(** [len(v)] *)
Definition py_len (v : pyval) : outcome nat :=
  match v with
  | VStr s | VBytes s => Ok (String.length s)
  | VList l | VSet l => Ok (List.length l)
  | VDict d => Ok (List.length d)
  | _ => Raise TypeError
  end.

(* ------------------------------------------------------------------ *)
(** ** Issues, results and the constants of the module *)

(** [@dataclass ValidationIssue] *)
Record ValidationIssue : Type := mkIssue {
  level : string;   (* "error" or "warning" *)
  field : string;
  message : string
}.

(** [@dataclass ValidationResult] *)
Record ValidationResult : Type := mkResult {
  valid : bool;
  skill_path : string;
  name : pyval;          (* [None] is [VNone] *)
  description : pyval;
  issues : list ValidationIssue;
  warnings : list ValidationIssue
}.

Definition NAME_MAX_LENGTH : nat := 64.
Definition DESCRIPTION_MAX_LENGTH : nat := 1024.
Definition RESERVED_WORDS : list string := ["anthropic"; "claude"].
Definition ALLOWED_FRONTMATTER_PROPERTIES : list string :=
  ["name"; "description"; "license"; "allowed-tools"; "metadata"].

(** [str(n)] for a natural number. *)
Definition nat_str (n : nat) : string :=
  NilEmpty.string_of_uint (Nat.to_uint n).

(** [sorted(...)] on strings (code point order) and [set(...)]. *)
Fixpoint insert_sorted (x : string) (l : list string) : list string :=
  match l with
  | [] => [x]
  | y :: t => if String.leb x y then x :: l else y :: insert_sorted x t
  end.

Definition sort_strings (l : list string) : list string :=
  fold_right insert_sorted [] l.

Definition dedup_strings (l : list string) : list string :=
  nodup string_dec l.

(* ------------------------------------------------------------------ *)
(** ** Regular expressions of the validator *)

Module Re.

Definition is_lc_alnum (c : ascii) : bool :=
  let n := nat_of_ascii c in ((97 <=? n) && (n <=? 122)) || ((48 <=? n) && (n <=? 57)).

(** the class [[a-z0-9-]] *)
Definition is_name_char (c : ascii) : bool :=
  is_lc_alnum c || Ascii.eqb c "-"%char.

Fixpoint all_chars (p : ascii -> bool) (s : string) : bool :=
  match s with
  | EmptyString => true
  | String c t => p c && all_chars p t
  end.

Fixpoint last_char (s : string) : option ascii :=
  match s with
  | EmptyString => None
  | String c EmptyString => Some c
  | String _ t => last_char t
  end.

(** Drops the last character. *)
Fixpoint init (s : string) : string :=
  match s with
  | EmptyString => EmptyString
  | String _ EmptyString => EmptyString
  | String c t => String c (init t)
  end.

(** Python's [$] without MULTILINE matches at the end of the string and
    also just before a newline that ends it: a pattern [^P$] anchored at
    the start matches [s] iff [P] matches the whole of [s], or [s] ends in
    a newline and [P] matches the whole of [s] without it. *)
Definition dollar_match (full : string -> bool) (s : string) : bool :=
  full s || (Py.endswith s Py.nl && full (init s)).

(** Whole-string match of [[a-z0-9][a-z0-9-]*[a-z0-9]|[a-z0-9]]. *)
Definition name_body_full (s : string) : bool :=
  match s, last_char s with
  | String c _, Some l => is_lc_alnum c && all_chars is_name_char s && is_lc_alnum l
  | _, _ => false
  end.

(** [NAME_PATTERN.match(name)] with
    [NAME_PATTERN = r'^[a-z0-9][a-z0-9-]*[a-z0-9]$|^[a-z0-9]$'] *)
Definition NAME_PATTERN_match (s : string) : bool :=
  dollar_match name_body_full s.

(** [re.match(r'^[a-z0-9-]+$', name)] *)
Definition name_chars_match (s : string) : bool :=
  dollar_match (fun t => negb (String.eqb t "") && all_chars is_name_char t) s.

End Re.

(* ------------------------------------------------------------------ *)
(** ** The rule set *)

Definition err (f m : string) : ValidationIssue := mkIssue "error" f m.
Definition warn (f m : string) : ValidationIssue := mkIssue "warning" f m.

Definition allowed_key (k : pyval) : bool :=
  match k with
  | VStr s => existsb (String.eqb s) ALLOWED_FRONTMATTER_PROPERTIES
  | _ => false
  end.

Definition str_of (v : pyval) : string :=
  match v with VStr s => s | _ => "" end.

(** [validate_frontmatter_properties(frontmatter)].  [sorted] and
    [', '.join] raise [TypeError] as soon as an unexpected key is not a
    [str]. *)
Definition validate_frontmatter_properties (fm : list (pyval * pyval))
  : outcome (list ValidationIssue) :=
  let unexpected := filter (fun k => negb (allowed_key k)) (map fst fm) in
  match unexpected with
  | [] => Ok []
  | _ =>
    if forallb is_str unexpected then
      Ok [err "frontmatter"
            ("Unexpected frontmatter properties: "
             ++ String.concat ", " (sort_strings (dedup_strings (map str_of unexpected)))
             ++ ". " ++ "Allowed: "
             ++ String.concat ", " (sort_strings ALLOWED_FRONTMATTER_PROPERTIES))]
    else Raise TypeError
  end.

Definition MSG_NAME_MISSING := "Required field 'name' is missing".
Definition MSG_NAME_LOWER := "Field 'name' must be lowercase".
Definition MSG_NAME_SPACES := "Field 'name' cannot contain spaces (use hyphens)".
Definition MSG_NAME_UNDERSCORE :=
  "Field 'name' uses underscores (prefer hyphens for consistency)".
Definition MSG_NAME_CHARS :=
  "Field 'name' must contain only lowercase letters, numbers, and hyphens".

Definition name_too_long_issue (n : nat) : ValidationIssue :=
  err "name" ("Field 'name' exceeds " ++ nat_str NAME_MAX_LENGTH
              ++ " characters (got " ++ nat_str n ++ ")").

(** [# Length check] of [validate_name] *)
Definition name_length_check (name : string) : list ValidationIssue :=
  if NAME_MAX_LENGTH <? String.length name
  then [name_too_long_issue (String.length name)] else [].

(** [# Format check] of [validate_name] *)
Definition name_format_check (name : string) : list ValidationIssue :=
  if negb (Re.NAME_PATTERN_match name) then
    if negb (String.eqb name (Py.lower name)) then [err "name" MSG_NAME_LOWER]
    else if Py.contains name " " then [err "name" MSG_NAME_SPACES]
    else if Py.contains name "_" then [warn "name" MSG_NAME_UNDERSCORE]
    else if negb (Re.name_chars_match name) then [err "name" MSG_NAME_CHARS]
    else []
  else [].

(** [# Reserved words check] of [validate_name] *)
Definition name_reserved_check (name : string) : list ValidationIssue :=
  flat_map (fun reserved =>
              if Py.contains (Py.lower name) reserved
              then [err "name" ("Field 'name' cannot contain reserved word '"
                                ++ reserved ++ "'")]
              else []) RESERVED_WORDS.

(** [# XML tag check] of [validate_name] *)
Definition name_xml_check (name : string) : list ValidationIssue :=
  if Py.contains name "<" || Py.contains name ">"
  then [err "name" "Field 'name' cannot contain XML tags"] else [].

(** [validate_name(name)] *)
Definition validate_name (v : pyval) : list ValidationIssue :=
  if negb (truthy v) then [err "name" MSG_NAME_MISSING]
  else match v with
       | VStr name =>
           name_length_check name ++ name_format_check name
           ++ name_reserved_check name ++ name_xml_check name
       | _ => [err "name" ("Field 'name' must be a string, got " ++ type_name v)]
       end.

Definition MSG_DESC_SHORT :=
  "Field 'description' is quite short - consider adding more detail".
Definition MSG_DESC_TRIGGER :=
  "Description lacks trigger phrases - consider explaining when to use this skill".

Definition trigger_indicators : list string :=
  ["when"; "use this"; "should be used"; "helps with"; "for"].

(** [validate_description(description)] *)
Definition validate_description (v : pyval) : list ValidationIssue :=
  if negb (truthy v) then [err "description" "Required field 'description' is missing"]
  else match v with
       | VStr d =>
         if String.eqb (Py.strip d) "" then
           [err "description" "Field 'description' cannot be empty"]
         else
           (if DESCRIPTION_MAX_LENGTH <? String.length d
            then [err "description" ("Field 'description' exceeds "
                    ++ nat_str DESCRIPTION_MAX_LENGTH ++ " characters (got "
                    ++ nat_str (String.length d) ++ ")")] else [])
           ++ (if Py.contains d "<" || Py.contains d ">"
               then [err "description" "Field 'description' cannot contain XML tags"]
               else [])
           ++ (if String.length d <? 50 then [warn "description" MSG_DESC_SHORT] else [])
           ++ (if existsb (Py.contains (Py.lower d)) trigger_indicators
               then [] else [warn "description" MSG_DESC_TRIGGER])
       | _ => [err "description"
                 ("Field 'description' must be a string, got " ++ type_name v)]
       end.

Definition MSG_BODY_NOEX :=
  "No examples or task/workflow guidance found - consider adding short examples or task steps".

Definition example_markers : list string :=
  ["## example"; "### example"; "example:"; "examples"; "core tasks"; "workflow"].

(** [validate_body(body)] *)
Definition validate_body (body : string) : list ValidationIssue :=
  if String.eqb body "" || String.eqb (Py.strip body) "" then
    [err "body" "Skill body content is empty"]
  else
    let word_count := List.length (Py.split_ws body) in
    (if word_count <? 100 then
       [warn "body" ("Skill body is quite short (" ++ nat_str word_count
                     ++ " words) - consider adding more detail")]
     else if 5000 <? word_count then
       [warn "body" ("Skill body is very long (" ++ nat_str word_count
                     ++ " words) - consider moving details to references/")]
     else [])
    ++ (if existsb (Py.contains (Py.lower body)) example_markers
        then [] else [warn "body" MSG_BODY_NOEX]).

(* ------------------------------------------------------------------ *)
(** ** The fallback frontmatter parser *)

(** The maximal prefix of [s] whose characters satisfy [p], and the rest. *)
Fixpoint span (p : ascii -> bool) (s : string) : string * string :=
  match s with
  | EmptyString => (EmptyString, EmptyString)
  | String c t =>
      if p c then let (a, b) := span p t in (String c a, b)
      else (EmptyString, s)
  end.

Definition is_alpha (c : ascii) : bool :=
  let n := nat_of_ascii c in ((65 <=? n) && (n <=? 90)) || ((97 <=? n) && (n <=? 122)).
Definition is_digit (c : ascii) : bool :=
  let n := nat_of_ascii c in (48 <=? n) && (n <=? 57).

(** the classes [[a-zA-Z_]] and [[a-zA-Z0-9_]] *)
Definition is_key_start (c : ascii) : bool := is_alpha c || Ascii.eqb c "_"%char.
Definition is_key_char (c : ascii) : bool := is_key_start c || is_digit c.

Definition not_newline (c : ascii) : bool := negb (Ascii.eqb c "010"%char).

(** [re.match(r'^(K)\s*:\s*(V)$', line)] with K the class sequence
    [[a-zA-Z_][a-zA-Z0-9_]*] and V the pattern [.*], giving
    [(group(1), group(2))].  The key is the maximal run of key characters
    (a shorter one would be followed by a key character, not by [\s] or
    [:]); both [\s*] are greedy and giving characters back never lets [.*]
    reach a place where [$] matches. *)
Definition key_match (line : string) : option (string * string) :=
  match line with
  | String c _ =>
    if is_key_start c then
      let (key, r1) := span is_key_char line in
      let (_, r2) := span Py.is_space r1 in
      match r2 with
      | String colon r3 =>
          if Ascii.eqb colon ":"%char then
            let (_, r4) := span Py.is_space r3 in
            let (v, r5) := span not_newline r4 in
            if String.eqb r5 "" || String.eqb r5 Py.nl then Some (key, v) else None
          else None
      | EmptyString => None
      end
    else None
  | EmptyString => None
  end.

(** [d[k] = v] on a dict with [str] keys: an existing key keeps its place. *)
Fixpoint dict_set {V : Type} (d : list (string * V)) (k : string) (v : V)
  : list (string * V) :=
  match d with
  | [] => [(k, v)]
  | (k', v') :: t => if String.eqb k k' then (k, v) :: t else (k', v') :: dict_set t k v
  end.

Definition dquote : string := String "034"%char EmptyString.
Definition squote : string := String "039"%char EmptyString.

(** [_normalize_yaml_value(value)] *)
Definition _normalize_yaml_value (value : string) : string :=
  let value := Py.strip value in
  if (Py.startswith value dquote && Py.endswith value dquote)
     || (Py.startswith value squote && Py.endswith value squote)
  then Py.slice_inner value else value.

(** The loop variables of [_parse_simple_frontmatter]. *)
Record fb_state : Type := mkFb {
  fb_frontmatter : list (string * string);
  current_key : option string;   (* a matched key is never empty *)
  current_value_lines : list string
}.

Definition fb_flush (st : fb_state) : list (string * string) :=
  match current_key st with
  | Some k => dict_set (fb_frontmatter st) k
                (_normalize_yaml_value (Py.join_nl (current_value_lines st)))
  | None => fb_frontmatter st
  end.

Definition is_indented (line : string) : bool :=
  Py.startswith line "  " || Py.startswith line (String "009"%char EmptyString).

(** One iteration of [for line in frontmatter_lines]. *)
Definition fb_step (st : fb_state) (line : string) : fb_state :=
  match key_match line with
  | Some (k, v) => mkFb (fb_flush st) (Some k) [v]
  | None =>
      match current_key st with
      | Some _ =>
          if is_indented line
          then mkFb (fb_frontmatter st) (current_key st)
                    (current_value_lines st ++ [Py.strip line])
          else st
      | None => st
      end
  end.

(** [_parse_simple_frontmatter(frontmatter_lines)] *)
Definition _parse_simple_frontmatter (frontmatter_lines : list string)
  : list (string * string) :=
  fb_flush (fold_left fb_step frontmatter_lines (mkFb [] None [])).

(* ------------------------------------------------------------------ *)
(** ** extract_frontmatter *)

(** What [yaml.safe_load] gives back: a value, a [yaml.YAMLError], or
    another exception, named by its type. *)
Inductive yaml_outcome : Type :=
| YLoaded (v : pyval)
| YAMLError (msg : string)
| YRaise (exc_type : string).

(** The module-level [yaml]: [None] when PyYAML is not installed, otherwise
    its [safe_load]. *)
Record env : Type := mkEnv { yaml : option (string -> yaml_outcome) }.

(** The triple [(frontmatter, body, error)] returned by
    [extract_frontmatter]: either [(None, content, msg)] or
    [(frontmatter, body, None)]; or the exception that escapes it. *)
Inductive extract_result : Type :=
| ExtractOk (frontmatter : list (pyval * pyval)) (body : string)
| ExtractErr (msg : string)
| ExtractRaise (x : py_exc).

Definition MSG_FM_MISSING := "Missing YAML frontmatter (file must start with ---)".
Definition MSG_FM_UNTERMINATED := "Invalid YAML frontmatter (missing closing ---)".
Definition MSG_FM_NOT_MAPPING := "Frontmatter must be a YAML mapping".

(** [for i, line in enumerate(lines[1:], start=1): if line.strip() == "---"] *)
Fixpoint find_closing (ls : list string) (i : nat) : option nat :=
  match ls with
  | [] => None
  | l :: t => if String.eqb (Py.strip l) "---" then Some i else find_closing t (S i)
  end.

(** [extract_frontmatter(content)] *)
Definition extract_frontmatter (e : env) (content : string) : extract_result :=
  if negb (Py.startswith (Py.strip content) "---") then ExtractErr MSG_FM_MISSING
  else
    let lines := Py.split_nl content in
    match find_closing (tl lines) 1 with
    | None => ExtractErr MSG_FM_UNTERMINATED
    | Some frontmatter_end =>
      let frontmatter_lines := firstn (frontmatter_end - 1) (tl lines) in
      let frontmatter_text := Py.join_nl frontmatter_lines in
      let body := Py.join_nl (skipn (frontmatter_end + 1) lines) in
      match yaml e with
      | Some safe_load =>
          match safe_load frontmatter_text with
          | YAMLError m => ExtractErr ("Invalid YAML in frontmatter: " ++ m)
          | YRaise t => ExtractRaise (LoaderError t)
          | YLoaded VNone => ExtractOk [] body
          | YLoaded (VDict d) => ExtractOk d body
          | YLoaded _ => ExtractErr MSG_FM_NOT_MAPPING
          end
      | None =>
          ExtractOk (map (fun kv => (VStr (fst kv), VStr (snd kv)))
                       (_parse_simple_frontmatter frontmatter_lines)) body
      end
    end.

(* ------------------------------------------------------------------ *)
(** ** The file system and validate_skill_file *)

(** What a path names: a file whose text decodes as UTF-8, a directory
    (reading it raises [IsADirectoryError]), or a file whose [open]/[read]
    raises with the given message (permissions, bad UTF-8, ...). *)
Inductive fs_entry : Type :=
| FFile (content : string)
| FDir
| FUnreadable (error : string).

(** A file-system state: [None] when [os.path.exists] is false. *)
Definition fs_state : Type := string -> option fs_entry.

(** The result of [open(path).read()]: the text or the exception message. *)
Definition read_file (fs : fs_state) (path : string) : option (string + string) :=
  match fs path with
  | None => None
  | Some (FFile c) => Some (inl c)
  | Some FDir => Some (inr ("[Errno 21] Is a directory: '" ++ path ++ "'")%string)
  | Some (FUnreadable e) => Some (inr e)
  end.

(** The early [return ValidationResult(valid=False, ..., issues=[...],
    warnings=[])] of both entry points. *)
Definition early_failure (path f msg : string) : ValidationResult :=
  mkResult false path VNone VNone [err f msg] [].

Definition MSG_NO_PYYAML :=
  "PyYAML not installed; using simplified parser. Install PyYAML for full YAML support.".

(** [frontmatter.get(key)] *)
Definition dict_get (fm : list (pyval * pyval)) (key : string) : pyval :=
  match find (fun kv => match fst kv with VStr k => String.eqb k key | _ => false end) fm with
  | Some (_, v) => v
  | None => VNone
  end.

Definition is_error (i : ValidationIssue) : bool := String.eqb (level i) "error".

(** [description[:100] + "..." if description and len(description) > 100
    else description]: [len] raises on [None], [bool], [int], [float]
    and dates; slicing and [+ "..."] only work on [str]. *)
Definition display_description (d : pyval) : outcome pyval :=
  if truthy d then
    n <- py_len d ;;
    if 100 <? n then
      match d with
      | VStr s => Ok (VStr (Py.slice_to 100 s ++ "..."))
      | _ => Raise TypeError
      end
    else Ok d
  else Ok d.

(** [validate_skill_file(file_path)] *)
Definition validate_skill_file (e : env) (fs : fs_state) (file_path : string)
  : outcome ValidationResult :=
  match read_file fs file_path with
  | None => Ok (early_failure file_path "file" ("File not found: " ++ file_path))
  | Some (inr msg) =>
      Ok (early_failure file_path "file" ("Failed to read file: " ++ msg))
  | Some (inl content) =>
    match extract_frontmatter e content with
    | ExtractErr fm_error => Ok (early_failure file_path "frontmatter" fm_error)
    | ExtractRaise x => Raise x
    | ExtractOk frontmatter body =>
      let warnings0 :=
        match yaml e with
        | None => [warn "frontmatter" MSG_NO_PYYAML]
        | Some _ => []
        end in
      fm_property_issues <- validate_frontmatter_properties frontmatter ;;
      let name := dict_get frontmatter "name" in
      let name_issues := validate_name name in
      let description := dict_get frontmatter "description" in
      let desc_issues := validate_description description in
      let body_issues := validate_body body in
      let all_issues := fm_property_issues ++ name_issues ++ desc_issues ++ body_issues in
      let errs := filter is_error all_issues in
      let warns := warnings0 ++ filter (fun i => negb (is_error i)) all_issues in
      shown <- display_description description ;;
      Ok (mkResult (List.length errs =? 0) file_path name shown errs warns)
    end
  end.

(* ------------------------------------------------------------------ *)
(** ** validate_skill_directory *)

Definition has_ref_extension (seg : string) : bool :=
  existsb (fun ext =>
             Py.endswith seg ("." ++ ext)
             && (String.length ext + 1 <? String.length seg))
          ["md"; "py"; "sh"; "json"].

(** [re.findall(r'`([^`]+\.(md|py|sh|json))`', content)], first groups.
    A match starting at a backtick must close at the next backtick (the
    class excludes it), so the scan keeps the text since the last
    unmatched backtick: at a backtick that text is a match when it ends in
    a known extension after at least one character; otherwise the failed
    attempt moves on and this backtick opens the next attempt. *)
Fixpoint findall_refs (s : string) (open_seg : option string) : list string :=
  match s with
  | EmptyString => []
  | String c t =>
    if Ascii.eqb c "`"%char then
      match open_seg with
      | None => findall_refs t (Some EmptyString)
      | Some seg =>
          if negb (String.eqb seg "") && has_ref_extension seg
          then seg :: findall_refs t None
          else findall_refs t (Some EmptyString)
      end
    else
      match open_seg with
      | None => findall_refs t None
      | Some seg => findall_refs t (Some (seg ++ String c EmptyString)%string)
      end
  end.

Definition reference_warnings (fs : fs_state) (dir_path content : string)
  : list ValidationIssue :=
  flat_map (fun ref =>
              match fs (Py.path_join dir_path ref) with
              | None => [warn "references" ("Referenced file not found: " ++ ref)]
              | Some _ => []
              end) (findall_refs content None).

Definition SKILL_MD := "SKILL.md".

(** [validate_skill_directory(dir_path)].  The [os.path.isdir] probes of
    the optional sub-directories are unused; a failing re-read of SKILL.md
    is swallowed by [except Exception: pass]. *)
Definition validate_skill_directory (e : env) (fs : fs_state) (dir_path : string)
  : outcome ValidationResult :=
  let skill_md_path := Py.path_join dir_path SKILL_MD in
  match fs skill_md_path with
  | None => Ok (early_failure dir_path "structure" ("No SKILL.md found in " ++ dir_path))
  | Some _ =>
      result <- validate_skill_file e fs skill_md_path ;;
      let additional_warnings :=
        match read_file fs skill_md_path with
        | Some (inl content) => reference_warnings fs dir_path content
        | _ => []
        end in
      Ok (mkResult (valid result) (skill_path result) (name result)
                   (description result) (issues result)
                   (warnings result ++ additional_warnings))
  end.

(* ------------------------------------------------------------------ *)
(** ** The strict parser on flat mappings *)

(** PyYAML is a third-party library, not code of this repository.  For
    concrete runs, [Yaml.flat_load] models [yaml.safe_load] on the flat
    fragment the validator meets in practice: every line is empty, a
    comment starting in column 0, or [key: value] in column 0 with a
    single-line value (printable ASCII).  Keys are plain words starting
    with a letter or [_]; values are quoted scalars without escapes, or
    plain scalars resolved by the YAML 1.1 rules PyYAML implements
    (null, booleans, decimal integers, otherwise strings when they start
    with a letter).  Anything outside the fragment gives [None]. *)
Module Yaml.

Definition printable (c : ascii) : bool :=
  let n := nat_of_ascii c in (32 <=? n) && (n <=? 126).

Definition null_words : list string := ["~"; "null"; "Null"; "NULL"].
Definition true_words : list string :=
  ["yes"; "Yes"; "YES"; "true"; "True"; "TRUE"; "on"; "On"; "ON"].
Definition false_words : list string :=
  ["no"; "No"; "NO"; "false"; "False"; "FALSE"; "off"; "Off"; "OFF"].

Definition mem (s : string) (l : list string) : bool := existsb (String.eqb s) l.

Definition is_decimal (v : string) : bool :=
  match v with
  | String c t => Re.all_chars is_digit v && (String.eqb t "" || negb (Ascii.eqb c "0"%char))
  | EmptyString => false
  end.

Fixpoint decimal_value (v : string) (acc : Z) : Z :=
  match v with
  | EmptyString => acc
  | String c t => decimal_value t (acc * 10 + Z.of_nat (nat_of_ascii c - 48))%Z
  end.

(** Plain scalars that stay inside the fragment. *)
Definition plain_ok (v : string) : bool :=
  Re.all_chars printable v && negb (Py.contains v ": ") && negb (Py.contains v " #")
  && negb (Py.endswith v ":").

(** Implicit resolution of a plain scalar. *)
Definition resolve_plain (v : string) : option pyval :=
  if String.eqb v "" || mem v null_words then Some VNone
  else if mem v true_words then Some (VBool true)
  else if mem v false_words then Some (VBool false)
  else match v with
       | String c _ =>
           if is_decimal v then Some (VInt (decimal_value v 0))
           else if is_alpha c && plain_ok v then Some (VStr v) else None
       | EmptyString => None
       end.

Definition quoted_inner (q v : string) : option string :=
  if (2 <=? String.length v) && Py.startswith v q && Py.endswith v q then
    let inner := Py.slice_inner v in
    if negb (Py.contains inner q) && negb (Py.contains inner "\")
    then Some inner else None
  else None.

(** A (stripped) scalar after [key:]. *)
Definition scalar (v : string) : option pyval :=
  if Py.startswith v dquote then option_map VStr (quoted_inner dquote v)
  else if Py.startswith v squote then option_map VStr (quoted_inner squote v)
  else resolve_plain v.

Definition is_yaml_key_char (c : ascii) : bool := is_key_char c || Ascii.eqb c "-"%char.

Definition plain_key (k : string) : option string :=
  match k with
  | String c _ =>
      if is_key_start c && negb (mem k null_words) && negb (mem k true_words)
         && negb (mem k false_words)
      then Some k else None
  | EmptyString => None
  end.

(** One line: [Some None] for a line that carries no entry, [Some (Some
    (k, v))] for an entry, [None] outside the fragment. *)
Definition line (l : string) : option (option (string * pyval)) :=
  if String.eqb l "" then Some None
  else if Py.startswith l "#" then
    (if Re.all_chars printable l then Some None else None)
  else
    let (k, rest) := span is_yaml_key_char l in
    match plain_key k, rest with
    | Some k, String colon r =>
        if Ascii.eqb colon ":"%char then
          if String.eqb r "" then Some (Some (k, VNone))
          else if Py.startswith r " " && Re.all_chars printable r then
            option_map (fun v => Some (k, v)) (scalar (Py.strip r))
          else None
        else None
    | _, _ => None
    end.

(** Later entries for a key replace earlier ones in place, as the
    constructor's [mapping[key] = value] does. *)
Definition step (acc : option (list (string * pyval))) (l : string)
  : option (list (string * pyval)) :=
  match acc, line l with
  | Some d, Some None => Some d
  | Some d, Some (Some (k, v)) => Some (dict_set d k v)
  | _, _ => None
  end.

Definition flat_load (text : string) : option yaml_outcome :=
  match fold_left step (Py.split_nl text) (Some []) with
  | None => None
  | Some [] => Some (YLoaded VNone)
  | Some d => Some (YLoaded (VDict (map (fun kv => (VStr (fst kv), snd kv)) d)))
  end.

End Yaml.

(** The environment with PyYAML installed, its [safe_load] given by
    [Yaml.flat_load]; texts outside the modelled fragment are reported as a
    YAML error (every concrete run below stays inside the fragment). *)
Definition env_pyyaml : env :=
  mkEnv (Some (fun t => match Yaml.flat_load t with
                        | Some r => r
                        | None => YAMLError "outside the modelled fragment"
                        end)).

(** The environment without PyYAML: the fallback parser is used. *)
Definition env_fallback : env := mkEnv None.



(* ------------------------------------------------------------------ *)
(** ** The name-format diagnosis as the specification words it *)

(** Uppercase letters below code point 256 (À-Ö, Ø-Þ and A-Z). *)
Definition is_upper (c : ascii) : bool :=
  let n := nat_of_ascii c in
  ((65 <=? n) && (n <=? 90)) || ((192 <=? n) && (n <=? 222) && negb (n =? 215)).

Fixpoint any_char (p : ascii -> bool) (s : string) : bool :=
  match s with
  | EmptyString => false
  | String c t => p c || any_char p t
  end.


(* ------------------------------------------------------------------ *)
(** ** Concrete inputs *)

Fixpoint repeat_str (n : nat) (s : string) : string :=
  match n with O => EmptyString | S k => s ++ repeat_str k s end.

(** Scenario 1 of the specification. *)
Definition scenario1_doc : string :=
  "---" ++ Py.nl ++ "name: my-skill" ++ Py.nl
  ++ "description: Use this when doing X." ++ Py.nl ++ "---" ++ Py.nl
  ++ repeat_str 150 "word ".

(** A file system holding exactly one file. *)
Definition single_file_fs (path content : string) : fs_state :=
  fun p => if String.eqb p path then Some (FFile content) else None.

Definition int_description_doc : string :=
  "---" ++ Py.nl ++ "name: my-skill" ++ Py.nl ++ "description: 42" ++ Py.nl
  ++ "---" ++ Py.nl ++ "Some body text.".

(** A document without frontmatter that names a file in backticks. *)
Definition no_frontmatter_doc : string := "Notes: see `x.md` for details.".

(** A document whose first line and closing line are padded with spaces. *)
Definition padded_delimiters_doc : string :=
  " ---" ++ Py.nl ++ "name: a" ++ Py.nl ++ " --- " ++ Py.nl ++ "body".

(* ------------------------------------------------------------------ *)
(** ** result_to_json and main *)

(** The values [json.dumps] can write.  Object keys are kept as the scalar
    they were built from ([str], [int], [float], [bool] or [None]); the
    encoder turns them into strings ([True] into ["true"], [1] into ["1"],
    ...) when it writes them. *)
Inductive json : Type :=
| JNull
| JBool (b : bool)
| JInt (z : Z)
| JFloat (is_zero : bool)
| JStr (s : string)
| JArr (l : list json)
| JObj (kvs : list (json * json)).

(** The key check of the encoder ([skipkeys=False]): a key that is not a
    [str], [int], [float], [bool] or [None] raises [TypeError]. *)
Definition json_key (k : pyval) : outcome json :=
  match k with
  | VNone => Ok JNull
  | VBool b => Ok (JBool b)
  | VInt z => Ok (JInt z)
  | VFloat z => Ok (JFloat z)
  | VStr s => Ok (JStr s)
  | _ => Raise TypeError
  end.

(** What [json.dumps] encodes a value as: [bytes], [set] and dates are not
    JSON serializable and raise [TypeError]. *)
Fixpoint to_json (v : pyval) : outcome json :=
  match v with
  | VNone => Ok JNull
  | VBool b => Ok (JBool b)
  | VInt z => Ok (JInt z)
  | VFloat z => Ok (JFloat z)
  | VStr s => Ok (JStr s)
  | VList l =>
      let fix go (l : list pyval) : outcome (list json) :=
        match l with
        | [] => Ok []
        | x :: t => y <- to_json x ;; ys <- go t ;; Ok (y :: ys)
        end in
      ys <- go l ;; Ok (JArr ys)
  | VDict d =>
      let fix go (d : list (pyval * pyval)) : outcome (list (json * json)) :=
        match d with
        | [] => Ok []
        | (k, x) :: t => k' <- json_key k ;; y <- to_json x ;; ys <- go t ;;
                         Ok ((k', y) :: ys)
        end in
      ys <- go d ;; Ok (JObj ys)
  | VBytes _ | VSet _ | VDate _ => Raise TypeError
  end.

(** [{"field": i.field, "message": i.message}] *)
Definition issue_json (i : ValidationIssue) : json :=
  JObj [(JStr "field", JStr (field i)); (JStr "message", JStr (message i))].

(** [result_to_json(result)]: the object handed to [json.dumps(...,
    indent=2)], or the [TypeError] the encoder raises on it.  The layout
    of the text (indentation, escapes) is not modelled. *)
Definition result_to_json (r : ValidationResult) : outcome json :=
  n <- to_json (name r) ;;
  d <- to_json (description r) ;;
  Ok (JObj [(JStr "valid", JBool (valid r));
            (JStr "skill_path", JStr (skill_path r));
            (JStr "name", n);
            (JStr "description", d);
            (JStr "errors", JArr (map issue_json (issues r)));
            (JStr "warnings", JArr (map issue_json (warnings r)))]).

(** What [main] prints: the module docstring, or a JSON object. *)
Inductive printed : Type :=
| PrintDoc
| PrintJson (j : json).

(** [if os.path.isfile(path): ... elif os.path.isdir(path): ... else: ...];
    a file that cannot be read is still a file for [os.path.isfile]. *)
Definition validate_path (e : env) (fs : fs_state) (path : string)
  : option (outcome ValidationResult) :=
  match fs path with
  | Some (FFile _) | Some (FUnreadable _) => Some (validate_skill_file e fs path)
  | Some FDir => Some (validate_skill_directory e fs path)
  | None => None
  end.

(** [main()] on [sys.argv]: what it prints and its exit status.  An
    exception that escapes ends the interpreter with status 1 before
    anything is printed. *)
Definition main (e : env) (fs : fs_state) (argv : list string) : list printed * nat :=
  match argv with
  | _ :: path :: _ =>
      match validate_path e fs path with
      | None =>
          ([PrintJson (JObj [(JStr "valid", JBool false);
                             (JStr "error", JStr ("Path not found: " ++ path))])], 1)
      | Some (Raise _) => ([], 1)
      | Some (Ok result) =>
          match result_to_json result with
          | Raise _ => ([], 1)
          | Ok j => ([PrintJson j], if valid result then 0 else 1)
          end
      end
  | _ => ([PrintDoc], 1)
  end.

(* ------------------------------------------------------------------ *)
(** ** package_skill (scripts/package_skill.py) *)

(** [package_skill(skill_path, output_dir)] with [validate_skill_directory]
    imported from the validator.  [resolve] is [Path.resolve] (to a string);
    [write_archive] is the part after the validation gate (choosing and
    creating the output directory, writing the zip), given the resolved
    skill folder and [output_dir]: what it prints and what it returns or
    raises.  The result is what is printed and the returned path ([None] is
    [Ok None]) or the exception that escapes. *)
Definition package_skill (e : env) (fs : fs_state) (resolve : string -> string)
  (write_archive : string -> option string -> list string * outcome (option string))
  (skill_path : string) (output_dir : option string)
  : list string * outcome (option string) :=
  let skill_path := resolve skill_path in
  match fs skill_path with
  | None => ([("Error: Skill folder not found: " ++ skill_path)%string], Ok None)
  | Some FDir =>
      let skill_md := Py.path_join skill_path SKILL_MD in
      match fs skill_md with
      | None => ([("Error: SKILL.md not found in " ++ skill_path)%string], Ok None)
      | Some _ =>
          match validate_skill_directory e fs skill_path with
          | Raise x => (["Validating skill..."], Raise x)
          | Ok result =>
              if negb (valid result) then
                (["Validating skill..."; "Validation failed:"]
                 ++ map (fun i => ("  - " ++ message i)%string) (issues result)
                 ++ [(Py.nl ++ "Please fix the validation errors before packaging.")%string],
                 Ok None)
              else
                let (out, res) := write_archive skill_path output_dir in
                (["Validating skill..."; ("Validation passed!" ++ Py.nl)%string] ++ out, res)
          end
      end
  | Some _ => ([("Error: Path is not a directory: " ++ skill_path)%string], Ok None)
  end.

(** A document made of the lines [fls] between two [---] lines, then [b]. *)
Definition fm_doc (fls : list string) (b : string) : string :=
  ("---" ++ Py.nl ++ String.concat "" (map (fun l => l ++ Py.nl)%string fls)
   ++ "---" ++ Py.nl ++ b)%string.

(** Issue levels used by the validators. *)
Definition level_ok (i : ValidationIssue) : Prop :=
  level i = "error" \/ level i = "warning".

Definition name_or_nl (c : ascii) : bool := Re.is_name_char c || Ascii.eqb c "010"%char.


(** A file system holding one directory [dir] with the given [SKILL.md]. *)
Definition skill_dir_fs (dir content : string) : fs_state :=
  fun p => if String.eqb p dir then Some FDir
           else if String.eqb p (Py.path_join dir SKILL_MD) then Some (FFile content)
           else None.

(** A YAML loader that reads [name] as a date, as PyYAML's [safe_load] does
    for an unquoted [name: 2024-01-01]. *)
Definition date_name_env : env :=
  mkEnv (Some (fun _ => YLoaded (VDict [(VStr "name", VDate false);
                                        (VStr "description", VStr "Use this when doing X.")]))).


(** The test [fst kv == k] of a dictionary lookup [d.get(k)]. *)
Definition key_is (k : string) (kv : string * string) : bool := String.eqb (fst kv) k.

(* ------------------------------------------------------------------ *)
(** ** Lemmas *)

Lemma upper_lower_char (c : ascii) :
  Ascii.eqb c (Py.lower_char c) = negb (is_upper c).
Proof. destruct c as [[] [] [] [] [] [] [] []]; reflexivity. Qed.

Lemma eqb_lower (s : string) :
  String.eqb s (Py.lower s) = negb (any_char is_upper s).
Proof.
  induction s as [|c t IH]; [reflexivity|].
  cbn [Py.lower any_char String.eqb].
  rewrite IH, upper_lower_char.
  destruct (is_upper c); reflexivity.
Qed.

Lemma contains_char (s : string) (c : ascii) :
  Py.contains s (String c EmptyString) = any_char (fun d => Ascii.eqb d c) s.
Proof.
  induction s as [|d t IH]; [reflexivity|].
  cbn [Py.contains any_char String.prefix].
  rewrite IH. destruct (ascii_dec c d) as [->|Hne].
  - rewrite Ascii.eqb_refl. destruct t; reflexivity.
  - assert (E : Ascii.eqb d c = false) by (apply Ascii.eqb_neq; congruence).
    rewrite E. reflexivity.
Qed.


(* ------------------------------------------------------------------ *)
(** ** Claims about validate_name *)


(** C8: a name of 65 or more characters of [[a-z0-9-]] always gets the
    too-long Error, whether or not it matches the format pattern. *)
Theorem validate_name_too_long (name : string) :
  65 <= String.length name -> Re.all_chars Re.is_name_char name = true ->
  In (name_too_long_issue (String.length name)) (validate_name (VStr name)).
Proof.
  intros Hlen _. destruct name as [|c t]; [cbn in Hlen; lia|].
  unfold validate_name.
  replace (truthy (VStr (String c t))) with true by reflexivity.
  cbn [negb]. apply in_or_app. left. unfold name_length_check.
  replace (NAME_MAX_LENGTH <? String.length (String c t)) with true
    by (symmetry; apply Nat.ltb_lt; unfold NAME_MAX_LENGTH; lia).
  left. reflexivity.
Qed.

Lemma validate_name_too_long_witness :
  (65 <= String.length (repeat_str 65 "-")
   /\ Re.all_chars Re.is_name_char (repeat_str 65 "-") = true)
  /\ In (name_too_long_issue 65) (validate_name (VStr (repeat_str 65 "-"))).
Proof.
  split; [split; [apply Nat.leb_le; vm_compute; reflexivity | vm_compute; reflexivity]|].
  apply (validate_name_too_long (repeat_str 65 "-"));
    [apply Nat.leb_le; vm_compute; reflexivity | vm_compute; reflexivity].
Defined.

(** C10: for a value that is not a [str], [validate_name] emits only the
    missing-field Error when the value is falsy ([False], [0], [[]], ...)
    and only the type Error when it is truthy. *)
Theorem validate_name_non_string (v : pyval) :
  is_str v = false ->
  validate_name v =
    if truthy v
    then [err "name" ("Field 'name' must be a string, got " ++ type_name v)]
    else [err "name" MSG_NAME_MISSING].
Proof.
  intro H. unfold validate_name.
  destruct (truthy v); cbn [negb]; [|reflexivity].
  destruct v; try discriminate; reflexivity.
Qed.

Lemma validate_name_non_string_witness :
  is_str (VBool false) = false
  /\ validate_name (VBool false) = [err "name" MSG_NAME_MISSING]
  /\ validate_name (VList [VInt 1])
     = [err "name" "Field 'name' must be a string, got list"].
Proof.
  split; [reflexivity|]. split.
  - exact (validate_name_non_string (VBool false) eq_refl).
  - exact (validate_name_non_string (VList [VInt 1]) eq_refl).
Defined.

(* ------------------------------------------------------------------ *)
(** ** Concrete scenarios *)

(** C3 (counterexample): scenario 1 validates without errors but not
    without warnings, with either parser. *)
Lemma scenario1_has_warnings :
  (exists r, validate_skill_file env_pyyaml (single_file_fs "SKILL.md" scenario1_doc)
               "SKILL.md" = Ok r /\ warnings r <> [])
  /\ (exists r, validate_skill_file env_fallback (single_file_fs "SKILL.md" scenario1_doc)
                 "SKILL.md" = Ok r /\ warnings r <> []).
Proof.
  split; vm_compute; eexists; split; try reflexivity; discriminate.
Qed.

(** C3 (amended): scenario 1 gives [valid = true] and no errors, with two
    warnings (description under 50 characters, no examples or workflow
    marker in the body), preceded by the PyYAML-not-installed warning when
    the fallback parser is used. *)
Theorem scenario1_result :
  Yaml.flat_load ("name: my-skill" ++ Py.nl ++ "description: Use this when doing X.")
    = Some (YLoaded (VDict [(VStr "name", VStr "my-skill");
                            (VStr "description", VStr "Use this when doing X.")]))
  /\ validate_skill_file env_pyyaml (single_file_fs "SKILL.md" scenario1_doc) "SKILL.md"
     = Ok (mkResult true "SKILL.md" (VStr "my-skill") (VStr "Use this when doing X.") []
             [warn "description" MSG_DESC_SHORT; warn "body" MSG_BODY_NOEX])
  /\ validate_skill_file env_fallback (single_file_fs "SKILL.md" scenario1_doc) "SKILL.md"
     = Ok (mkResult true "SKILL.md" (VStr "my-skill") (VStr "Use this when doing X.") []
             [warn "frontmatter" MSG_NO_PYYAML; warn "description" MSG_DESC_SHORT;
              warn "body" MSG_BODY_NOEX]).
Proof. repeat split; vm_compute; reflexivity. Qed.

(** C1 (code bug): with PyYAML, [description: 42] loads as the int 42;
    [validate_description] reports it as data ("must be a string"), but
    the display truncation then calls [len] on the int and the
    [TypeError] escapes both [validate_skill_file] and
    [validate_skill_directory]. *)
Theorem int_description_raises :
  Yaml.flat_load ("name: my-skill" ++ Py.nl ++ "description: 42")
    = Some (YLoaded (VDict [(VStr "name", VStr "my-skill"); (VStr "description", VInt 42)]))
  /\ validate_description (VInt 42)
     = [err "description" "Field 'description' must be a string, got int"]
  /\ validate_skill_file env_pyyaml (single_file_fs "SKILL.md" int_description_doc) "SKILL.md"
     = Raise TypeError
  /\ validate_skill_directory env_pyyaml (single_file_fs "d/SKILL.md" int_description_doc) "d"
     = Raise TypeError.
Proof. repeat split; vm_compute; reflexivity. Qed.

(* ------------------------------------------------------------------ *)
(** ** The fallback parser *)

Lemma fb_step_skip (st : fb_state) (l : string) :
  key_match l = None -> is_indented l = false -> fb_step st l = st.
Proof.
  intros Hk Hi. unfold fb_step. rewrite Hk.
  destruct (current_key st); [rewrite Hi|]; reflexivity.
Qed.

Lemma dict_set_in {V : Type} (d : list (string * V)) (k : string) (v : V) k' x :
  In (k', x) (dict_set d k v) -> k' = k \/ exists y, In (k', y) d.
Proof.
  induction d as [|[a b] t IH]; cbn [dict_set In]; intro H.
  - destruct H as [H|[]]. inversion H; auto.
  - destruct (String.eqb k a) eqn:E; destruct H as [H|H].
    + inversion H; auto.
    + right. exists x. right. exact H.
    + inversion H; subst. right. exists x. left. reflexivity.
    + destruct (IH H) as [->|[y Hy]]; [auto|]. right. exists y. right. exact Hy.
Qed.

Section FallbackKeys.

Variable all_lines : list string.

(** The keys the fallback parser can hold: group 1 of a key line of the
    input. *)
Let matched (k : string) : Prop :=
  exists l v, In l all_lines /\ key_match l = Some (k, v).

Lemma fb_flush_matched (st : fb_state) :
  (forall k x, In (k, x) (fb_frontmatter st) -> matched k) ->
  (forall k, current_key st = Some k -> matched k) ->
  forall k x, In (k, x) (fb_flush st) -> matched k.
Proof.
  intros Hfm Hcur k x Hin. unfold fb_flush in Hin.
  destruct (current_key st) as [ck|] eqn:E; [|exact (Hfm k x Hin)].
  destruct (dict_set_in _ _ _ _ _ Hin) as [->|[y Hy]].
  - apply Hcur. reflexivity.
  - exact (Hfm k y Hy).
Qed.

Lemma fold_fb_step_matched (rest : list string) :
  forall st, (forall l, In l rest -> In l all_lines) ->
  (forall k x, In (k, x) (fb_frontmatter st) -> matched k) ->
  (forall k, current_key st = Some k -> matched k) ->
  (forall k x, In (k, x) (fb_frontmatter (fold_left fb_step rest st)) -> matched k)
  /\ (forall k, current_key (fold_left fb_step rest st) = Some k -> matched k).
Proof.
  induction rest as [|l rest IH]; intros st Hsub Hfm Hcur; [split; assumption|].
  cbn [fold_left]. apply IH.
  - intros l' H. apply Hsub. right. exact H.
  - unfold fb_step. destruct (key_match l) as [[k v]|] eqn:Ek.
    + exact (fb_flush_matched st Hfm Hcur).
    + destruct (current_key st); [destruct (is_indented l)|]; exact Hfm.
  - unfold fb_step. destruct (key_match l) as [[k v]|] eqn:Ek.
    + intros k' Hk'. cbn in Hk'. inversion Hk'; subst.
      exists l, v. split; [apply Hsub; left; reflexivity | exact Ek].
    + destruct (current_key st) eqn:Ec; [destruct (is_indented l)|];
        cbn; rewrite ?Ec; exact Hcur.
Qed.

End FallbackKeys.

(** C9: [_parse_simple_frontmatter] is a total function of the input lines
    whose keys are only group 1 of lines matching the key pattern
    [[a-zA-Z_][a-zA-Z0-9_]*]; an unmatched line that is not indented
    (two spaces or a tab) is dropped without trace, in particular any
    [allowed-tools: ...] line. *)
Theorem fallback_parser_drops_unmatched_lines :
  (forall pre l post,
     key_match l = None -> is_indented l = false ->
     _parse_simple_frontmatter (pre ++ l :: post) = _parse_simple_frontmatter (pre ++ post))
  /\ (forall v, key_match ("allowed-tools" ++ v) = None)
  /\ (forall ls k x, In (k, x) (_parse_simple_frontmatter ls) ->
        exists l v, In l ls /\ key_match l = Some (k, v)).
Proof.
  split; [|split].
  - intros pre l post Hk Hi. unfold _parse_simple_frontmatter.
    rewrite !fold_left_app. cbn [fold_left]. rewrite fb_step_skip by assumption.
    reflexivity.
  - intro v. reflexivity.
  - intros ls k x Hin. unfold _parse_simple_frontmatter in Hin.
    destruct (fold_fb_step_matched ls ls (mkFb [] None []) (fun l H => H))
      as [Hfm Hcur].
    + intros k' x' [].
    + intros k' H. discriminate H.
    + exact (fb_flush_matched ls _ Hfm Hcur k x Hin).
Qed.

Lemma fallback_parser_drops_unmatched_lines_witness :
  (key_match "allowed-tools: Read" = None /\ is_indented "allowed-tools: Read" = false)
  /\ _parse_simple_frontmatter ["name: a"; "allowed-tools: Read"; "license: MIT"]
     = _parse_simple_frontmatter ["name: a"; "license: MIT"].
Proof.
  split; [split; reflexivity|].
  exact (proj1 fallback_parser_drops_unmatched_lines ["name: a"] "allowed-tools: Read"
           ["license: MIT"] eq_refl eq_refl).
Defined.

(* ------------------------------------------------------------------ *)
(** ** extract_frontmatter *)

Lemma find_closing_none (ls : list string) (i : nat) :
  find_closing ls i = None <->
  forallb (fun l => negb (String.eqb (Py.strip l) "---")) ls = true.
Proof.
  revert i. induction ls as [|l t IH]; intro i; cbn [find_closing forallb].
  - split; reflexivity.
  - destruct (String.eqb (Py.strip l) "---"); cbn [negb andb].
    + split; discriminate.
    + apply IH.
Qed.

(** C4 (counterexample): a first line [" ---"] and a closing line
    [" --- "] are accepted as delimiters and extraction proceeds. *)
Lemma padded_delimiters_accepted :
  extract_frontmatter env_pyyaml padded_delimiters_doc
    = ExtractOk [(VStr "name", VStr "a")] "body"
  /\ extract_frontmatter env_fallback padded_delimiters_doc
    = ExtractOk [(VStr "name", VStr "a")] "body".
Proof. split; vm_compute; reflexivity. Qed.

(* ------------------------------------------------------------------ *)
(** ** The result invariant *)

Lemma validate_skill_file_valid (e : env) (fs : fs_state) (path : string) :
  match validate_skill_file e fs path with
  | Ok r => valid r = match issues r with [] => true | _ => false end
  | Raise _ => True
  end.
Proof.
  unfold validate_skill_file.
  destruct (read_file fs path) as [[c|m]|]; [|reflexivity|reflexivity].
  destruct (extract_frontmatter e c) as [fm body|m|x]; [|reflexivity|exact I].
  destruct (validate_frontmatter_properties fm) as [fmi|x]; cbn [bind]; [|exact I].
  destruct (display_description _) as [shown|x]; cbn [bind]; [|exact I].
  cbn [valid issues].
  destruct (filter is_error _); reflexivity.
Qed.

(** C6: whatever the file system, every result either entry point returns
    has [valid = true] exactly when its error list is empty; this covers
    the early structural failures and the reference warnings appended by
    the directory scan. *)
Theorem valid_iff_no_errors (e : env) (fs : fs_state) (path : string) :
  match validate_skill_file e fs path with
  | Ok r => valid r = match issues r with [] => true | _ => false end
  | Raise _ => True
  end
  /\ match validate_skill_directory e fs path with
     | Ok r => valid r = match issues r with [] => true | _ => false end
     | Raise _ => True
     end.
Proof.
  split; [apply validate_skill_file_valid|].
  unfold validate_skill_directory.
  destruct (fs (Py.path_join path SKILL_MD)); [|reflexivity].
  pose proof (validate_skill_file_valid e fs (Py.path_join path SKILL_MD)) as H.
  destruct (validate_skill_file e fs (Py.path_join path SKILL_MD)) as [r|x];
    cbn [bind]; [exact H | exact I].
Qed.

(* ------------------------------------------------------------------ *)
(** ** The directory scan *)

Lemma reference_warnings_are_warnings (fs : fs_state) (d c : string) :
  Forall (fun i => level i = "warning" /\ field i = "references")
         (reference_warnings fs d c).
Proof.
  apply Forall_forall. intros i Hi. unfold reference_warnings in Hi.
  apply in_flat_map in Hi. destruct Hi as [ref [_ Hi]].
  destruct (fs (Py.path_join d ref)); [destruct Hi|].
  destruct Hi as [<-|[]]. split; reflexivity.
Qed.

(** C5 (counterexample): SKILL.md without frontmatter fails extraction,
    and the directory result still carries a reference warning. *)
Lemma reference_warnings_after_failed_extraction :
  extract_frontmatter env_pyyaml no_frontmatter_doc = ExtractErr MSG_FM_MISSING
  /\ validate_skill_directory env_pyyaml (single_file_fs "d/SKILL.md" no_frontmatter_doc) "d"
     = Ok (mkResult false "d/SKILL.md" VNone VNone [err "frontmatter" MSG_FM_MISSING]
             [warn "references" "Referenced file not found: x.md"]).
Proof. split; vm_compute; reflexivity. Qed.

(* ------------------------------------------------------------------ *)
(** ** Strict and fallback parsers on flat mappings *)







Lemma all_chars_impl (p q : ascii -> bool) (s : string) :
  (forall c, p c = true -> q c = true) ->
  Re.all_chars p s = true -> Re.all_chars q s = true.
Proof.
  intro Hpq. induction s as [|c t IH]; intro H; [reflexivity|].
  cbn in H. apply andb_true_iff in H as [Hc Ht]. cbn. rewrite (Hpq c Hc). exact (IH Ht).
Qed.











(* ------------------------------------------------------------------ *)
(** ** Further properties of the validator, its CLI and the packager *)

Ltac split_ifs :=
  repeat match goal with
         | |- context [if ?c then _ else _] => destruct c
         end.

Ltac levels_in :=
  let i := fresh "i" in let Hi := fresh "Hi" in
  apply Forall_forall; intros i Hi; cbn [app In] in Hi;
  repeat (destruct Hi as [<-|Hi]; [cbn; auto|]); try destruct Hi.

Lemma validate_name_levels (v : pyval) :
  Forall level_ok (validate_name v).
Proof.
  unfold validate_name, level_ok. destruct (truthy v); cbn [negb]; [|levels_in].
  destruct v; try solve [levels_in].
  unfold name_length_check, name_format_check, name_reserved_check, name_xml_check.
  cbn [flat_map RESERVED_WORDS]. split_ifs; levels_in.
Qed.

Lemma validate_description_levels (v : pyval) :
  Forall level_ok (validate_description v).
Proof.
  unfold validate_description, level_ok. destruct (truthy v); cbn [negb]; [|levels_in].
  destruct v; try solve [levels_in]. split_ifs; levels_in.
Qed.

Lemma validate_body_levels (b : string) :
  Forall level_ok (validate_body b).
Proof. unfold validate_body, level_ok. split_ifs; levels_in. Qed.

Lemma validate_frontmatter_properties_levels (fm : list (pyval * pyval)) l :
  validate_frontmatter_properties fm = Ok l -> Forall level_ok l.
Proof.
  unfold validate_frontmatter_properties, level_ok.
  destruct (filter _ _); [intro H; inversion H; constructor|].
  destruct (forallb _ _); intro H; inversion H; subst; levels_in.
Qed.

Lemma filter_error_levels (l : list ValidationIssue) :
  Forall level_ok l ->
  Forall (fun i => level i = "error") (filter is_error l)
  /\ Forall (fun i => level i = "warning") (filter (fun i => negb (is_error i)) l).
Proof.
  intro H. split; apply Forall_forall; intros i Hi; apply filter_In in Hi;
    destruct Hi as [Hin Hf]; unfold is_error in Hf.
  - apply String.eqb_eq. exact Hf.
  - rewrite Forall_forall in H. destruct (H i Hin) as [E|E]; [|exact E].
    rewrite E in Hf. discriminate Hf.
Qed.

(** X1: in every result of [validate_skill_file] or [validate_skill_directory], the [issues] have level "error" and the [warnings] have level "warning". *)
Theorem result_levels (e : env) (fs : fs_state) (p : string) :
  (forall r, validate_skill_file e fs p = Ok r ->
     Forall (fun i => level i = "error") (issues r)
     /\ Forall (fun i => level i = "warning") (warnings r))
  /\ (forall r, validate_skill_directory e fs p = Ok r ->
     Forall (fun i => level i = "error") (issues r)
     /\ Forall (fun i => level i = "warning") (warnings r)).
Proof.
  assert (F : forall p r, validate_skill_file e fs p = Ok r ->
     Forall (fun i => level i = "error") (issues r)
     /\ Forall (fun i => level i = "warning") (warnings r)).
  { clear p. intros p r. unfold validate_skill_file.
    destruct (read_file fs p) as [[c|m]|];
      [| intro H; inversion H; subst; split; levels_in
       | intro H; inversion H; subst; split; levels_in].
    destruct (extract_frontmatter e c) as [fm body|m|x];
      [| intro H; inversion H; subst; split; levels_in | discriminate].
    destruct (validate_frontmatter_properties fm) as [fmi|x] eqn:Efp; cbn [bind];
      [|discriminate].
    destruct (display_description _) as [shown|x]; cbn [bind]; [|discriminate].
    intro H; inversion H; subst; cbn [issues warnings]; clear H.
    pose proof (validate_frontmatter_properties_levels _ _ Efp) as L1.
    edestruct filter_error_levels as [E W].
    { apply Forall_app; split; [exact L1|]. apply Forall_app; split;
        [apply validate_name_levels|]. apply Forall_app; split;
        [apply validate_description_levels | apply validate_body_levels]. }
    split; [exact E|]. apply Forall_app. split; [|exact W].
    destruct (yaml e); levels_in. }
  split; [apply F|].
  intros r. unfold validate_skill_directory.
  destruct (fs (Py.path_join p SKILL_MD)) as [x|];
    [| intro H; inversion H; subst; split; levels_in].
  destruct (validate_skill_file e fs (Py.path_join p SKILL_MD)) as [r0|y] eqn:Ev;
    cbn [bind]; [|discriminate].
  intro H; inversion H; subst; cbn [issues warnings]; clear H.
  destruct (F _ _ Ev) as [E W]. split; [exact E|]. apply Forall_app. split; [exact W|].
  destruct (read_file fs (Py.path_join p SKILL_MD)) as [[c|m]|]; try constructor.
  eapply Forall_impl; [|apply reference_warnings_are_warnings]. intros i [Hl _]. exact Hl.
Qed.

Lemma result_levels_witness :
  exists r, validate_skill_file env_pyyaml (single_file_fs "SKILL.md" scenario1_doc) "SKILL.md" = Ok r
    /\ warnings r <> [] /\ Forall (fun i => level i = "warning") (warnings r).
Proof.
  destruct (validate_skill_file env_pyyaml (single_file_fs "SKILL.md" scenario1_doc) "SKILL.md")
    as [r|x] eqn:E; [|vm_compute in E; discriminate E].
  exists r. split; [reflexivity|]. split.
  - vm_compute in E. injection E as <-. discriminate.
  - exact (proj2 (proj1 (result_levels _ _ _) r E)).
Defined.

(** X2: [validate_body] gives exactly the empty-body error when the body strips to the empty string, and otherwise only warnings on field "body". *)
Theorem validate_body_errors (b : string) :
  (Py.strip b = "" -> validate_body b = [err "body" "Skill body content is empty"])
  /\ (Py.strip b <> "" ->
      Forall (fun i => level i = "warning" /\ field i = "body") (validate_body b)).
Proof.
  unfold validate_body. split; intro H.
  - rewrite H, orb_true_r. reflexivity.
  - assert (E1 : String.eqb (Py.strip b) "" = false) by (apply String.eqb_neq; exact H).
    assert (E0 : String.eqb b "" = false).
    { apply String.eqb_neq. intro Hb. subst b. apply H. reflexivity. }
    rewrite E0, E1. cbn [orb].
    split_ifs; apply Forall_forall; intros i Hi; cbn [app In] in Hi;
      repeat (destruct Hi as [<-|Hi]; [split; reflexivity|]); destruct Hi.
Qed.

Lemma validate_body_errors_witness :
  validate_body "   " = [err "body" "Skill body content is empty"]
  /\ validate_body "Some body text." <> []
  /\ Forall (fun i => level i = "warning" /\ field i = "body") (validate_body "Some body text.").
Proof.
  split; [|split].
  - apply (proj1 (validate_body_errors _)). vm_compute. reflexivity.
  - vm_compute. discriminate.
  - apply (proj2 (validate_body_errors _)). vm_compute. discriminate.
Defined.

(** X3: [validate_description] on a string reports no error exactly when the description is not blank, has at most 1024 characters and contains neither "<" nor ">". *)
Theorem validate_description_no_error (d : string) :
  forallb (fun i => negb (is_error i)) (validate_description (VStr d))
  = negb (String.eqb (Py.strip d) "") && (String.length d <=? DESCRIPTION_MAX_LENGTH)
    && negb (Py.contains d "<" || Py.contains d ">").
Proof.
  unfold validate_description.
  destruct (String.eqb d "") eqn:Ed.
  { apply String.eqb_eq in Ed. subst d. reflexivity. }
  replace (truthy (VStr d)) with true by (cbn; rewrite Ed; reflexivity).
  cbn [negb]. destruct (String.eqb (Py.strip d) "") eqn:Es; [reflexivity|].
  rewrite Nat.leb_antisym.
  destruct (DESCRIPTION_MAX_LENGTH <? String.length d);
  destruct (Py.contains d "<" || Py.contains d ">");
  destruct (String.length d <? 50);
  destruct (existsb _ trigger_indicators); reflexivity.
Qed.

Lemma display_description_raise (d : pyval) :
  display_description d = Raise TypeError -> truthy d = true /\ is_str d = false.
Proof.
  unfold display_description. intro H. destruct (truthy d); [|discriminate H].
  split; [reflexivity|]. destruct d; try reflexivity.
  cbn [bind py_len] in H. destruct (100 <? String.length s); discriminate H.
Qed.

Lemma validate_frontmatter_properties_raise (fm : list (pyval * pyval)) :
  validate_frontmatter_properties fm = Raise TypeError ->
  exists k, In k (map fst fm) /\ allowed_key k = false /\ is_str k = false.
Proof.
  unfold validate_frontmatter_properties.
  destruct (filter (fun k => negb (allowed_key k)) (map fst fm)) as [|k0 t] eqn:Ef;
    [discriminate|].
  destruct (forallb is_str (k0 :: t)) eqn:Eb; [discriminate|]. intros _.
  apply Bool.not_true_iff_false in Eb.
  destruct (existsb (fun k => negb (is_str k)) (k0 :: t)) eqn:Ex.
  - apply existsb_exists in Ex. destruct Ex as [k [Hk Hs]].
    rewrite <- Ef in Hk. apply filter_In in Hk. destruct Hk as [Hk Ha].
    exists k. split; [exact Hk|]. split; [destruct (allowed_key k); [discriminate|reflexivity]|].
    destruct (is_str k); [discriminate|reflexivity].
  - exfalso. apply Eb. apply forallb_forall. intros x Hx.
    destruct (is_str x) eqn:Es; [reflexivity|].
    assert (Hc : existsb (fun k => negb (is_str k)) (k0 :: t) = true)
      by (apply existsb_exists; exists x; rewrite Es; auto).
    congruence.
Qed.

Lemma display_description_exc (d : pyval) x :
  display_description d = Raise x -> x = TypeError.
Proof.
  unfold display_description. intro H. destruct (truthy d); [|discriminate H].
  destruct d; cbn [bind py_len] in H; try (inversion H; reflexivity);
    destruct (100 <? _); inversion H; reflexivity.
Qed.

Lemma validate_frontmatter_properties_exc (fm : list (pyval * pyval)) x :
  validate_frontmatter_properties fm = Raise x -> x = TypeError.
Proof.
  unfold validate_frontmatter_properties. intro H.
  destruct (filter _ _); [discriminate H|].
  destruct (forallb _ _); inversion H; reflexivity.
Qed.

(** The only exception [extract_frontmatter] lets through is one raised by
    the loader. *)
Lemma extract_frontmatter_raise (e : env) (c : string) x :
  extract_frontmatter e c = ExtractRaise x -> yaml e <> None /\ exists t, x = LoaderError t.
Proof.
  unfold extract_frontmatter. intro H.
  destruct (negb _); [discriminate H|].
  destruct (find_closing _ _); [|discriminate H].
  destruct (yaml e) as [load|]; [|discriminate H].
  split; [discriminate|].
  destruct (load _) as [[]|m|t]; try discriminate H.
  inversion H. eauto.
Qed.

(** Helper: the only ways [validate_skill_file] raises. *)
Lemma validate_skill_file_raise_shape (e : env) (fs : fs_state) (p : string) x :
  validate_skill_file e fs p = Raise x ->
  exists content, read_file fs p = Some (inl content)
  /\ (extract_frontmatter e content = ExtractRaise x
      \/ (x = TypeError
          /\ exists fm body, extract_frontmatter e content = ExtractOk fm body
             /\ ((exists k, In k (map fst fm) /\ allowed_key k = false /\ is_str k = false)
                 \/ (truthy (dict_get fm "description") = true
                     /\ is_str (dict_get fm "description") = false)))).
Proof.
  unfold validate_skill_file. intro H.
  destruct (read_file fs p) as [[c|m]|] eqn:Er; try discriminate H.
  exists c. split; [reflexivity|].
  destruct (extract_frontmatter e c) as [fm body|m|y] eqn:Ex; try discriminate H.
  2: { left. inversion H. reflexivity. }
  right.
  destruct (validate_frontmatter_properties fm) as [fmi|y] eqn:Efp; cbn [bind] in H.
  - destruct (display_description (dict_get fm "description")) as [sh|y] eqn:Ed;
      cbn [bind] in H; [discriminate|].
    inversion H; subst y. pose proof (display_description_exc _ _ Ed) as ->.
    split; [reflexivity|]. exists fm, body. split; [reflexivity|].
    right. exact (display_description_raise _ Ed).
  - inversion H; subst y. pose proof (validate_frontmatter_properties_exc _ _ Efp) as ->.
    split; [reflexivity|]. exists fm, body. split; [reflexivity|].
    left. exact (validate_frontmatter_properties_raise _ Efp).
Qed.

Lemma validate_skill_file_raise_cause (e : env) (fs : fs_state) (p : string) :
  validate_skill_file e fs p = Raise TypeError ->
  exists content fm body,
    read_file fs p = Some (inl content) /\ extract_frontmatter e content = ExtractOk fm body
    /\ ((exists k, In k (map fst fm) /\ allowed_key k = false /\ is_str k = false)
        \/ (truthy (dict_get fm "description") = true
            /\ is_str (dict_get fm "description") = false)).
Proof.
  intro H. destruct (validate_skill_file_raise_shape _ _ _ _ H)
    as [c [Hr [Hx|[_ [fm [body [Hx Hc]]]]]]].
  - destruct (extract_frontmatter_raise _ _ _ Hx) as [_ [t Ht]]. discriminate Ht.
  - exists c, fm, body. auto.
Qed.

Lemma dict_get_str_map (sd : list (string * string)) (k : string) :
  dict_get (map (fun kv => (VStr (fst kv), VStr (snd kv))) sd) k = VNone
  \/ exists s, dict_get (map (fun kv => (VStr (fst kv), VStr (snd kv))) sd) k = VStr s.
Proof.
  unfold dict_get. induction sd as [|[a v] t IH]; [left; reflexivity|].
  cbn [map find fst snd]. destruct (String.eqb a k); [right; eexists; reflexivity|].
  exact IH.
Qed.

(** X4: without PyYAML, [validate_skill_file] and [validate_skill_directory] never raise. *)
Theorem fallback_never_raises (fs : fs_state) (p : string) :
  (exists r, validate_skill_file env_fallback fs p = Ok r)
  /\ (exists r, validate_skill_directory env_fallback fs p = Ok r).
Proof.
  assert (F : forall p, exists r, validate_skill_file env_fallback fs p = Ok r).
  { clear p. intro p.
    destruct (validate_skill_file env_fallback fs p) as [r|x] eqn:E; [eauto|].
    exfalso. destruct (validate_skill_file_raise_shape _ _ _ _ E)
      as [c [_ [Ex|[_ [fm [body [Ex Hc]]]]]]].
    { destruct (extract_frontmatter_raise _ _ _ Ex) as [Hy _]. apply Hy. reflexivity. }
    unfold extract_frontmatter in Ex.
    destruct (negb _); [discriminate|].
    destruct (find_closing _ _); [|discriminate]. cbn [yaml env_fallback] in Ex.
    inversion Ex; subst fm; clear Ex.
    destruct Hc as [[k [Hk [_ Hs]]]|[Ht Hs]].
    - rewrite map_map in Hk. apply in_map_iff in Hk. destruct Hk as [kv [<- _]].
      discriminate Hs.
    - match type of Hs with
      | context [dict_get (map _ ?sd) _] =>
          destruct (dict_get_str_map sd "description") as [H|[s H]]
      end; rewrite H in Hs, Ht; discriminate. }
  split; [apply F|].
  unfold validate_skill_directory.
  destruct (fs (Py.path_join p SKILL_MD)); [|eauto].
  destruct (F (Py.path_join p SKILL_MD)) as [r Hr]. rewrite Hr. cbn [bind]. eauto.
Qed.

(** X5: [validate_skill_file] raises [TypeError] only after a successful read and extraction, and only when an unexpected key is not a string or the description is truthy and not a string. *)
Theorem validate_skill_file_raises_only_on_non_str (e : env) (fs : fs_state) (p : string) :
  validate_skill_file e fs p = Raise TypeError ->
  exists content fm body,
    read_file fs p = Some (inl content) /\ extract_frontmatter e content = ExtractOk fm body
    /\ ((exists k, In k (map fst fm) /\ allowed_key k = false /\ is_str k = false)
        \/ (truthy (dict_get fm "description") = true
            /\ is_str (dict_get fm "description") = false)).
Proof. apply validate_skill_file_raise_cause. Qed.

Lemma validate_skill_file_raises_only_on_non_str_witness :
  validate_skill_file env_pyyaml (single_file_fs "SKILL.md" int_description_doc) "SKILL.md"
    = Raise TypeError
  /\ exists content fm body,
    read_file (single_file_fs "SKILL.md" int_description_doc) "SKILL.md" = Some (inl content)
    /\ extract_frontmatter env_pyyaml content = ExtractOk fm body
    /\ ((exists k, In k (map fst fm) /\ allowed_key k = false /\ is_str k = false)
        \/ (truthy (dict_get fm "description") = true
            /\ is_str (dict_get fm "description") = false)).
Proof.
  split; [vm_compute; reflexivity|].
  apply validate_skill_file_raises_only_on_non_str. vm_compute. reflexivity.
Defined.

Lemma str_length_append (a b : string) :
  String.length (a ++ b) = String.length a + String.length b.
Proof. induction a as [|c t IH]; cbn; [reflexivity|]. rewrite IH. reflexivity. Qed.

Lemma substring_length_le (n : nat) (s : string) : String.length (substring 0 n s) <= n.
Proof.
  revert s. induction n as [|n IH]; intro s; [destruct s; cbn; lia|].
  destruct s as [|c t]; cbn; [lia|]. specialize (IH t). lia.
Qed.

Lemma display_description_bound (d : pyval) t :
  display_description d = Ok (VStr t) -> String.length t <= 103.
Proof.
  unfold display_description. intro H.
  destruct (truthy d) eqn:Et.
  - destruct d; cbn [py_len bind] in H; try discriminate H.
    + destruct (100 <? String.length s) eqn:L; inversion H; subst.
      * rewrite str_length_append. pose proof (substring_length_le 100 s).
        unfold Py.slice_to. cbn [String.length]. lia.
      * apply Nat.ltb_ge in L. lia.
    + destruct (100 <? String.length b); discriminate H.
    + destruct (100 <? List.length l); discriminate H.
    + destruct (100 <? List.length l); discriminate H.
    + destruct (100 <? List.length d); discriminate H.
  - inversion H; subst. destruct t; [cbn; lia | discriminate Et].
Qed.

Lemma validate_skill_file_description (e : env) (fs : fs_state) (p : string) r :
  validate_skill_file e fs p = Ok r ->
  description r = VNone \/ display_description (description r) = Ok (description r)
  \/ exists d, display_description d = Ok (description r).
Proof.
  unfold validate_skill_file.
  destruct (read_file fs p) as [[c|m]|]; try (intro H; inversion H; subst; left; reflexivity).
  destruct (extract_frontmatter e c) as [fm body|m|x];
    [|intro H; inversion H; subst; left; reflexivity | discriminate].
  destruct (validate_frontmatter_properties fm); cbn [bind]; [|discriminate].
  destruct (display_description (dict_get fm "description")) as [sh|x] eqn:Ed;
    cbn [bind]; [|discriminate].
  intro H; inversion H; subst. right. right. eexists. exact Ed.
Qed.

(** X6: a string description in a result of [validate_skill_file] or [validate_skill_directory] has at most 103 characters. *)
Theorem shown_description_bounded (e : env) (fs : fs_state) (p : string) r t :
  (validate_skill_file e fs p = Ok r \/ validate_skill_directory e fs p = Ok r) ->
  description r = VStr t -> String.length t <= 103.
Proof.
  assert (F : forall p r t, validate_skill_file e fs p = Ok r ->
                description r = VStr t -> String.length t <= 103).
  { clear p r t. intros p r t H Hd.
    destruct (validate_skill_file_description _ _ _ _ H) as [E|[E|[d E]]];
      rewrite Hd in E; [discriminate| |]; exact (display_description_bound _ _ E). }
  intros [H|H] Hd; [exact (F _ _ _ H Hd)|].
  revert H. unfold validate_skill_directory.
  destruct (fs (Py.path_join p SKILL_MD)); [|intro H; inversion H; subst; discriminate].
  destruct (validate_skill_file e fs (Py.path_join p SKILL_MD)) as [r0|x] eqn:E;
    cbn [bind]; [|discriminate].
  intro H; inversion H; subst. cbn [description] in Hd. exact (F _ _ _ E Hd).
Qed.

Lemma shown_description_bounded_witness :
  exists r t,
    validate_skill_file env_pyyaml (single_file_fs "SKILL.md" scenario1_doc) "SKILL.md" = Ok r
    /\ description r = VStr t /\ String.length t <= 103.
Proof.
  destruct (validate_skill_file env_pyyaml (single_file_fs "SKILL.md" scenario1_doc) "SKILL.md")
    as [r|x] eqn:E; [|vm_compute in E; discriminate E].
  assert (D : description r = VStr "Use this when doing X.")
    by (pose proof E as E'; vm_compute in E'; injection E' as <-; reflexivity).
  exists r, "Use this when doing X.". split; [reflexivity|]. split; [exact D|].
  exact (shown_description_bounded _ _ _ _ _ (or_introl E) D).
Defined.

(** X7: [validate_skill_directory] reports the path of SKILL.md when it exists, and the directory otherwise. *)
Theorem directory_skill_path (e : env) (fs : fs_state) (d : string) r :
  validate_skill_directory e fs d = Ok r ->
  skill_path r = match fs (Py.path_join d SKILL_MD) with
                 | Some _ => Py.path_join d SKILL_MD
                 | None => d
                 end.
Proof.
  unfold validate_skill_directory.
  destruct (fs (Py.path_join d SKILL_MD)); [|intro H; inversion H; reflexivity].
  set (q := Py.path_join d SKILL_MD).
  destruct (validate_skill_file e fs q) as [r0|x] eqn:E; cbn [bind]; [|discriminate].
  intro H; inversion H; subst; cbn [skill_path]. clear H.
  revert E. unfold validate_skill_file.
  destruct (read_file fs q) as [[c|m]|]; try (intro H; inversion H; reflexivity).
  destruct (extract_frontmatter e c); [|intro H; inversion H; reflexivity | discriminate].
  destruct (validate_frontmatter_properties _); cbn [bind]; [|discriminate].
  destruct (display_description _); cbn [bind]; [|discriminate].
  intro H; inversion H; reflexivity.
Qed.

Lemma directory_skill_path_witness :
  exists r, validate_skill_directory env_pyyaml (skill_dir_fs "/d" scenario1_doc) "/d" = Ok r
    /\ skill_path r = "/d/SKILL.md".
Proof.
  destruct (validate_skill_directory env_pyyaml (skill_dir_fs "/d" scenario1_doc) "/d")
    as [r|x] eqn:E; [|vm_compute in E; discriminate E].
  exists r. split; [reflexivity|].
  rewrite (directory_skill_path _ _ _ _ E). vm_compute. reflexivity.
Defined.

Lemma string_of_list_ascii_app (a b : list ascii) :
  string_of_list_ascii (a ++ b) = (string_of_list_ascii a ++ string_of_list_ascii b)%string.
Proof. induction a as [|c t IH]; cbn; [reflexivity|]. rewrite IH. reflexivity. Qed.

Lemma list_ascii_of_string_app (a b : string) :
  list_ascii_of_string (a ++ b) = list_ascii_of_string a ++ list_ascii_of_string b.
Proof. induction a as [|c t IH]; cbn; [reflexivity|]. rewrite IH. reflexivity. Qed.

Lemma rev_str_app (a b : string) :
  Py.rev_str (a ++ b) = (Py.rev_str b ++ Py.rev_str a)%string.
Proof.
  unfold Py.rev_str. rewrite list_ascii_of_string_app, rev_app_distr.
  apply string_of_list_ascii_app.
Qed.

Lemma rev_str_involutive (s : string) : Py.rev_str (Py.rev_str s) = s.
Proof.
  unfold Py.rev_str. rewrite list_ascii_of_string_of_list_ascii, rev_involutive.
  apply string_of_list_ascii_of_string.
Qed.

Lemma rev_str_single (c : ascii) : Py.rev_str (String c EmptyString) = String c EmptyString.
Proof. reflexivity. Qed.

Lemma str_app_nil_r (s : string) : (s ++ "")%string = s.
Proof. induction s as [|c t IH]; cbn; [reflexivity|]. rewrite IH. reflexivity. Qed.

Lemma str_app_assoc (a b c : string) : (a ++ (b ++ c))%string = ((a ++ b) ++ c)%string.
Proof. induction a as [|x t IH]; cbn; [reflexivity|]. rewrite IH. reflexivity. Qed.

Lemma prefix_app (n x y : string) :
  String.prefix n x = true -> String.prefix n (x ++ y) = true.
Proof.
  revert x. induction n as [|a n IH]; intros x H; [destruct (x ++ y)%string; reflexivity|].
  destruct x as [|b x]; [discriminate H|]. cbn in H |- *.
  destruct (ascii_dec a b); [apply IH; exact H | discriminate H].
Qed.

Lemma prefix_refl (n : string) : String.prefix n n = true.
Proof.
  induction n as [|a n IH]; [reflexivity|]. cbn.
  destruct (ascii_dec a a) as [_|C]; [exact IH | contradiction C; reflexivity].
Qed.

Lemma contains_app_l (x y n : string) :
  Py.contains x n = true -> Py.contains (x ++ y) n = true.
Proof.
  induction x as [|c t IH]; intro H.
  - destruct n; [destruct y; reflexivity | discriminate H].
  - cbn [append Py.contains] in H |- *. apply orb_true_iff in H as [H|H].
    + pose proof (prefix_app n (String c t) y H) as P. cbn [append] in P.
      rewrite P. reflexivity.
    + rewrite IH by exact H. apply orb_true_r.
Qed.

Lemma contains_app_r (x y n : string) :
  Py.contains y n = true -> Py.contains (x ++ y) n = true.
Proof.
  induction x as [|c t IH]; intro H; [exact H|].
  cbn [append Py.contains]. rewrite IH by exact H. apply orb_true_r.
Qed.

Lemma contains_refl (n : string) : Py.contains n n = true.
Proof. destruct n; cbn [Py.contains]; rewrite prefix_refl; reflexivity. Qed.

Lemma contains_concat (sep k : string) (l : list string) :
  In k l -> Py.contains (String.concat sep l) k = true.
Proof.
  induction l as [|a t IH]; intro H; [destruct H|].
  destruct H as [<-|H].
  - destruct t; cbn [String.concat]; [apply contains_refl|].
    apply contains_app_l, contains_refl.
  - destruct t as [|b t]; [destruct H|]. cbn [String.concat].
    apply contains_app_r, contains_app_r. exact (IH H).
Qed.

Lemma insert_sorted_in (x k : string) (l : list string) :
  In k (insert_sorted x l) <-> x = k \/ In k l.
Proof.
  induction l as [|y t IH]; cbn [insert_sorted]; [cbn; tauto|].
  destruct (String.leb x y); cbn [In]; [tauto|]. rewrite IH. tauto.
Qed.

Lemma sort_strings_in (k : string) (l : list string) :
  In k (sort_strings l) <-> In k l.
Proof.
  induction l as [|y t IH]; [cbn; tauto|]. unfold sort_strings in *. cbn [fold_right].
  rewrite insert_sorted_in, IH. cbn [In]. tauto.
Qed.

Lemma filter_unexpected_nil (l : list pyval) :
  filter (fun k => negb (allowed_key k)) l = [] <-> forallb allowed_key l = true.
Proof.
  induction l as [|a t IH]; [cbn; tauto|]. cbn [filter forallb].
  destruct (allowed_key a); cbn [negb andb]; [exact IH|]. split; discriminate.
Qed.

(** X8: with string keys, [validate_frontmatter_properties] returns no issue when all keys are allowed, and otherwise one frontmatter error whose message names every unexpected key. *)
Theorem frontmatter_properties_str_keys (fm : list (pyval * pyval)) :
  forallb is_str (map fst fm) = true ->
  (forallb allowed_key (map fst fm) = true -> validate_frontmatter_properties fm = Ok [])
  /\ (forallb allowed_key (map fst fm) = false ->
      exists m, validate_frontmatter_properties fm = Ok [err "frontmatter" m]
      /\ forall k, In (VStr k) (map fst fm) -> allowed_key (VStr k) = false ->
                   Py.contains m k = true).
Proof.
  intro Hs. unfold validate_frontmatter_properties. split; intro Ha.
  - apply filter_unexpected_nil in Ha. rewrite Ha. reflexivity.
  - destruct (filter (fun k => negb (allowed_key k)) (map fst fm)) as [|k0 t] eqn:Ef.
    { apply filter_unexpected_nil in Ef. congruence. }
    assert (Hstr : forallb is_str (k0 :: t) = true).
    { apply forallb_forall. intros x Hx. rewrite <- Ef in Hx.
      apply filter_In in Hx as [Hx _]. rewrite forallb_forall in Hs. exact (Hs x Hx). }
    rewrite Hstr. eexists. split; [reflexivity|].
    intros k Hk Hna. apply contains_app_r, contains_app_l, contains_concat.
    apply sort_strings_in. unfold dedup_strings. apply nodup_In.
    apply in_map_iff. exists (VStr k). split; [reflexivity|].
    rewrite <- Ef. apply filter_In. split; [exact Hk|]. rewrite Hna. reflexivity.
Qed.

Lemma frontmatter_properties_str_keys_witness :
  exists m,
    validate_frontmatter_properties [(VStr "name", VStr "a"); (VStr "foo", VStr "b")]
      = Ok [err "frontmatter" m]
    /\ Py.contains m "foo" = true.
Proof.
  assert (Hs : forallb is_str (map fst [(VStr "name", VStr "a"); (VStr "foo", VStr "b")]) = true)
    by (vm_compute; reflexivity).
  assert (Ha : forallb allowed_key (map fst [(VStr "name", VStr "a"); (VStr "foo", VStr "b")]) = false)
    by (vm_compute; reflexivity).
  destruct (proj2 (frontmatter_properties_str_keys _ Hs) Ha) as [m [Hm Hk]].
  exists m. split; [exact Hm|]. apply Hk; [cbn; auto | vm_compute; reflexivity].
Defined.

Lemma all_chars_app (p : ascii -> bool) (a b : string) :
  Re.all_chars p (a ++ b) = Re.all_chars p a && Re.all_chars p b.
Proof.
  induction a as [|c t IH]; cbn [append Re.all_chars]; [reflexivity|].
  rewrite IH. apply andb_assoc.
Qed.


Lemma prefix_single_app (a : ascii) (x y : string) :
  x <> EmptyString ->
  String.prefix (String a EmptyString) (x ++ y) = String.prefix (String a EmptyString) x.
Proof.
  intro H. destruct x as [|d r]; [contradiction|]. cbn.
  destruct (ascii_dec a d); [destruct (r ++ y)%string, r; reflexivity | reflexivity].
Qed.

Lemma rev_str_cons (c : ascii) (t : string) :
  Py.rev_str (String c t) = (Py.rev_str t ++ String c EmptyString)%string.
Proof. exact (rev_str_app (String c EmptyString) t). Qed.

Lemma endswith_nl_split (s : string) :
  Py.endswith s Py.nl = true -> s = (Re.init s ++ Py.nl)%string.
Proof.
  induction s as [|c t IH]; intro H; [discriminate H|].
  unfold Py.endswith in H. change (Py.rev_str Py.nl) with Py.nl in H. rewrite rev_str_cons in H.
  destruct t as [|c' t'].
  - change (Py.rev_str "") with "" in H. cbn [append String.prefix Py.nl] in H.
    destruct (ascii_dec "010"%char c) as [<-|]; [reflexivity|discriminate H].
  - unfold Py.nl in H. rewrite prefix_single_app in H.
    + change (Re.init (String c (String c' t'))) with (String c (Re.init (String c' t'))).
      cbn [append]. f_equal. apply IH. exact H.
    + rewrite rev_str_cons. destruct (Py.rev_str t'); discriminate.
Qed.

Lemma NAME_PATTERN_chars (s : string) :
  Re.NAME_PATTERN_match s = true -> s <> EmptyString /\ Re.all_chars name_or_nl s = true.
Proof.
  assert (F : forall t, Re.name_body_full t = true ->
                t <> EmptyString /\ Re.all_chars name_or_nl t = true).
  { intros t H. unfold Re.name_body_full in H.
    destruct t as [|c r]; [discriminate H|]. split; [discriminate|].
    destruct (Re.last_char (String c r)); [|discriminate H].
    apply andb_true_iff in H as [H _]. apply andb_true_iff in H as [_ H].
    refine (all_chars_impl _ _ _ _ H). intros d Hd. unfold name_or_nl. rewrite Hd.
    reflexivity. }
  unfold Re.NAME_PATTERN_match, Re.dollar_match. intro H.
  apply orb_true_iff in H as [H|H]; [exact (F _ H)|].
  apply andb_true_iff in H as [Hnl H]. apply endswith_nl_split in Hnl.
  destruct (F _ H) as [_ Hc]. rewrite Hnl. split; [destruct (Re.init s); discriminate|].
  rewrite all_chars_app, Hc. reflexivity.
Qed.

Lemma any_char_none (p q : ascii -> bool) (s : string) :
  (forall c, p c = true -> q c = false) ->
  Re.all_chars p s = true -> any_char q s = false.
Proof.
  intro Hpq. induction s as [|c t IH]; intro H; [reflexivity|].
  cbn in H. apply andb_true_iff in H as [Hc Ht]. cbn. rewrite (Hpq c Hc). exact (IH Ht).
Qed.

Lemma name_or_nl_upper (c : ascii) : name_or_nl c = true -> is_upper c = false.
Proof. destruct c as [[] [] [] [] [] [] [] []]; first [reflexivity | discriminate]. Qed.

Lemma name_or_nl_angle (c : ascii) :
  name_or_nl c = true -> Ascii.eqb c "<"%char = false /\ Ascii.eqb c ">"%char = false.
Proof.
  destruct c as [[] [] [] [] [] [] [] []]; first [split; reflexivity | discriminate].
Qed.

(** X9: [validate_name] returns no issue for a string that matches NAME_PATTERN, has at most 64 characters and contains neither "anthropic" nor "claude". *)
Theorem validate_name_accepts_pattern (s : string) :
  Re.NAME_PATTERN_match s = true -> String.length s <= NAME_MAX_LENGTH ->
  Py.contains s "anthropic" = false -> Py.contains s "claude" = false ->
  validate_name (VStr s) = [].
Proof.
  intros Hp Hl Ha Hc. destruct (NAME_PATTERN_chars s Hp) as [Hne Hs].
  assert (Hlow : Py.lower s = s).
  { symmetry. apply String.eqb_eq. rewrite eqb_lower.
    rewrite (any_char_none _ _ s name_or_nl_upper Hs). reflexivity. }
  unfold validate_name.
  replace (truthy (VStr s)) with true
    by (destruct s; [contradiction | reflexivity]).
  cbn [negb].
  unfold name_length_check, name_format_check, name_reserved_check, name_xml_check.
  rewrite Hp. cbn [negb]. rewrite Hlow. cbn [flat_map RESERVED_WORDS].
  rewrite Ha, Hc, !contains_char.
  rewrite (any_char_none _ _ s (fun c H => proj1 (name_or_nl_angle c H)) Hs).
  rewrite (any_char_none _ _ s (fun c H => proj2 (name_or_nl_angle c H)) Hs).
  replace (NAME_MAX_LENGTH <? String.length s) with false
    by (symmetry; apply Nat.ltb_ge; exact Hl).
  reflexivity.
Qed.

Lemma validate_name_accepts_pattern_witness :
  Re.NAME_PATTERN_match "my-skill" = true /\ validate_name (VStr "my-skill") = [].
Proof.
  split; [vm_compute; reflexivity|].
  apply validate_name_accepts_pattern;
    [vm_compute; reflexivity | unfold NAME_MAX_LENGTH; cbn; lia
    | vm_compute; reflexivity | vm_compute; reflexivity].
Defined.

Lemma lstrip_nonspace (c : ascii) (t : string) :
  Py.is_space c = false -> Py.lstrip (String c t) = String c t.
Proof. intro H. cbn. rewrite H. reflexivity. Qed.

Lemma substring_prefix (s t : string) : substring 0 (String.length s) (s ++ t) = s.
Proof. induction s as [|c r IH]; [destruct t; reflexivity|]. cbn. rewrite IH. reflexivity. Qed.

Lemma prefix_nil (x : string) : String.prefix "" x = true.
Proof. destruct x; reflexivity. Qed.

Lemma normalize_wrapped (q : ascii) (s : string) :
  Py.is_space q = false ->
  _normalize_yaml_value (String q (s ++ String q EmptyString))
  = if Ascii.eqb q "034"%char || Ascii.eqb q "039"%char then s
    else Py.strip (String q (s ++ String q EmptyString)).
Proof.
  intro Hq.
  assert (Hst : Py.strip (String q (s ++ String q EmptyString))
                = String q (s ++ String q EmptyString)).
  { unfold Py.strip, Py.rstrip. rewrite lstrip_nonspace by exact Hq.
    change (String q (s ++ String q EmptyString))
      with (String q EmptyString ++ (s ++ String q EmptyString))%string.
    rewrite !rev_str_app, rev_str_single. cbn [append].
    rewrite lstrip_nonspace by exact Hq.
    change (String q (Py.rev_str s ++ String q EmptyString))
      with (String q EmptyString ++ (Py.rev_str s ++ String q EmptyString))%string.
    rewrite !rev_str_app, rev_str_single, rev_str_involutive. reflexivity. }
  unfold _normalize_yaml_value. rewrite Hst.
  assert (Hsw : forall r, Py.startswith (String q (s ++ String q EmptyString))
                            (String r EmptyString) = Ascii.eqb q r).
  { intro r. unfold Py.startswith. cbn [String.prefix].
    destruct (ascii_dec r q) as [<-|N]; [rewrite prefix_nil, Ascii.eqb_refl; reflexivity|].
    symmetry. apply Ascii.eqb_neq. congruence. }
  assert (Hew : forall r, Py.endswith (String q (s ++ String q EmptyString))
                            (String r EmptyString) = Ascii.eqb q r).
  { intro r. unfold Py.endswith.
    change (String q (s ++ String q EmptyString))
      with (String q EmptyString ++ (s ++ String q EmptyString))%string.
    rewrite !rev_str_app, !rev_str_single. cbn [append String.prefix].
    destruct (ascii_dec r q) as [<-|N]; [rewrite prefix_nil, Ascii.eqb_refl; reflexivity|].
    symmetry. apply Ascii.eqb_neq. congruence. }
  unfold dquote, squote. rewrite !Hsw, !Hew, !andb_diag.
  destruct (Ascii.eqb q "034"%char || Ascii.eqb q "039"%char); [|reflexivity].
  unfold Py.slice_inner. cbn [String.length]. rewrite str_length_append.
  cbn [String.length]. replace (S (String.length s + 1) - 2) with (String.length s) by lia.
  cbn [substring]. apply substring_prefix.
Qed.

(** X10: [_normalize_yaml_value] removes one pair of matching double or single quotes, and a lone quote character becomes the empty string. *)
Theorem normalize_unquotes (s : string) :
  _normalize_yaml_value (dquote ++ s ++ dquote) = s
  /\ _normalize_yaml_value (squote ++ s ++ squote) = s
  /\ _normalize_yaml_value dquote = ""
  /\ _normalize_yaml_value squote = "".
Proof.
  split; [|split; [|split; reflexivity]].
  - exact (normalize_wrapped "034"%char s eq_refl).
  - exact (normalize_wrapped "039"%char s eq_refl).
Qed.

Lemma dict_set_key_in {V : Type} (d : list (string * V)) (k : string) (v : V) k' :
  In k' (map fst (dict_set d k v)) -> k' = k \/ In k' (map fst d).
Proof.
  induction d as [|[a b] t IH]; cbn [dict_set map fst In]; intro H.
  - destruct H as [H|[]]. auto.
  - destruct (String.eqb k a) eqn:E; cbn [map fst In] in H |- *.
    + apply String.eqb_eq in E. subst. destruct H; auto.
    + destruct H as [H|H]; [auto|]. destruct (IH H); auto.
Qed.



Lemma split_nl_aux_nonl (x s cur : string) :
  Re.all_chars not_newline x = true ->
  Py.split_nl_aux (x ++ s) cur = Py.split_nl_aux s (cur ++ x).
Proof.
  revert cur. induction x as [|c t IH]; intros cur H.
  - rewrite str_app_nil_r. reflexivity.
  - cbn in H. apply andb_true_iff in H as [Hc Ht]. unfold not_newline in Hc.
    apply negb_true_iff in Hc. cbn [append Py.split_nl_aux]. rewrite Hc.
    rewrite IH by exact Ht. rewrite <- str_app_assoc. reflexivity.
Qed.

Lemma concat_empty_cons (a : string) (l : list string) :
  String.concat "" (a :: l) = (a ++ String.concat "" l)%string.
Proof. destruct l; cbn [String.concat]; [rewrite str_app_nil_r|]; reflexivity. Qed.

Lemma split_nl_lines (fls : list string) (rest : string) :
  Forall (fun l => Re.all_chars not_newline l = true) fls ->
  Py.split_nl_aux (String.concat "" (map (fun l => l ++ Py.nl)%string fls) ++ rest) ""
  = fls ++ Py.split_nl_aux rest "".
Proof.
  induction fls as [|l t IH]; intro H; [reflexivity|].
  inversion H as [|? ? Hl Ht]; subst.
  cbn [map]. rewrite concat_empty_cons, <- !str_app_assoc.
  rewrite split_nl_aux_nonl by exact Hl. cbn [append Py.nl Py.split_nl_aux].
  change (Ascii.eqb "010" "010") with true. cbn [app]. f_equal. exact (IH Ht).
Qed.

Lemma split_nl_aux_cons (s cur : string) : exists x xs, Py.split_nl_aux s cur = x :: xs.
Proof.
  revert cur. induction s as [|c t IH]; intro cur; cbn [Py.split_nl_aux]; [eauto|].
  destruct (Ascii.eqb c "010"%char); eauto.
Qed.

Lemma join_split_aux (s cur : string) :
  Py.join_nl (Py.split_nl_aux s cur) = (cur ++ s)%string.
Proof.
  revert cur. induction s as [|c t IH]; intro cur; cbn [Py.split_nl_aux].
  - cbn. rewrite str_app_nil_r. reflexivity.
  - destruct (Ascii.eqb c "010"%char) eqn:E.
    + apply Ascii.eqb_eq in E. subst c. unfold Py.join_nl.
      destruct (split_nl_aux_cons t "") as [x [xs Hx]]. rewrite Hx.
      replace (String.concat Py.nl (cur :: x :: xs))
        with (cur ++ Py.nl ++ String.concat Py.nl (x :: xs))%string by reflexivity.
      rewrite <- Hx. fold (Py.join_nl (Py.split_nl_aux t "")). rewrite IH. reflexivity.
    + rewrite IH, <- str_app_assoc. reflexivity.
Qed.

Lemma join_split (s : string) : Py.join_nl (Py.split_nl s) = s.
Proof. apply join_split_aux. Qed.

Lemma find_closing_app (fls r : list string) (i : nat) :
  Forall (fun l => Py.strip l <> "---") fls ->
  find_closing (fls ++ "---" :: r) i = Some (i + List.length fls).
Proof.
  revert i. induction fls as [|l t IH]; intros i H.
  - cbn [app find_closing].
    replace (String.eqb (Py.strip "---") "---") with true by (vm_compute; reflexivity).
    f_equal. cbn [List.length]. lia.
  - inversion H as [|? ? Hl Ht]; subst. cbn [app find_closing].
    replace (String.eqb (Py.strip l) "---") with false
      by (symmetry; apply String.eqb_neq; exact Hl).
    rewrite IH by exact Ht. f_equal. cbn [List.length]. lia.
Qed.

Lemma lstrip_app_nonspace (a y : string) :
  (match y with String c _ => Py.is_space c = false | EmptyString => True end) ->
  Py.lstrip (a ++ y) = (Py.lstrip a ++ y)%string.
Proof.
  intro Hy. induction a as [|c t IH]; cbn [append Py.lstrip].
  - destruct y as [|c r]; [reflexivity|]. cbn. rewrite Hy. reflexivity.
  - destruct (Py.is_space c); [exact IH | reflexivity].
Qed.

Lemma fm_doc_strip (x : string) :
  Py.startswith (Py.strip ("---" ++ x)) "---" = true.
Proof.
  unfold Py.strip, Py.rstrip.
  change (Py.lstrip ("---" ++ x)) with ("---" ++ x)%string.
  rewrite rev_str_app. change (Py.rev_str "---") with "---".
  rewrite lstrip_app_nonspace by reflexivity.
  rewrite rev_str_app. change (Py.rev_str "---") with "---".
  unfold Py.startswith. cbn [append String.prefix ascii_dec].
  destruct (ascii_dec "-" "-") as [_|C]; [|contradiction C; reflexivity].
  apply prefix_nil.
Qed.

Lemma skipn_length_app {A : Type} (l r : list A) (x : A) :
  skipn (List.length l + 1) (l ++ x :: r) = r.
Proof. induction l as [|y t IH]; [reflexivity|]. exact IH. Qed.

(** X14: [extract_frontmatter] on a document made of frontmatter lines between two [---] lines and a body returns the body unchanged, with the fallback parse of the lines; with PyYAML it gives the loader's result on the lines joined by newlines: the YAML error message, [{}] for [None], the mapping itself, the not-a-mapping error, or the loader's other exception passed through. *)
Theorem extract_frontmatter_fm_doc (fls : list string) (b : string) :
  Forall (fun l => Re.all_chars not_newline l = true /\ Py.strip l <> "---") fls ->
  extract_frontmatter env_fallback (fm_doc fls b)
  = ExtractOk (map (fun kv => (VStr (fst kv), VStr (snd kv)))
                   (_parse_simple_frontmatter fls)) b
  /\ forall load,
     extract_frontmatter (mkEnv (Some load)) (fm_doc fls b)
     = match load (Py.join_nl fls) with
       | YAMLError m => ExtractErr ("Invalid YAML in frontmatter: " ++ m)
       | YRaise t => ExtractRaise (LoaderError t)
       | YLoaded VNone => ExtractOk [] b
       | YLoaded (VDict d) => ExtractOk d b
       | YLoaded _ => ExtractErr MSG_FM_NOT_MAPPING
       end.
Proof.
  intro H.
  assert (Hnl : Forall (fun l => Re.all_chars not_newline l = true) fls)
    by (eapply Forall_impl; [|exact H]; intros l [Hl _]; exact Hl).
  assert (Hcl : Forall (fun l => Py.strip l <> "---") fls)
    by (eapply Forall_impl; [|exact H]; intros l [_ Hl]; exact Hl).
  assert (Hsplit : Py.split_nl (fm_doc fls b) = "---" :: fls ++ "---" :: Py.split_nl b).
  { unfold fm_doc, Py.split_nl.
    change ("---" ++ Py.nl ++ ?r)%string with (String "-" (String "-" (String "-" (String "010" r)))).
    cbn [Py.split_nl_aux append].
    change (Ascii.eqb "-" "010") with false. change (Ascii.eqb "010" "010") with true.
    cbn [append]. f_equal. rewrite split_nl_lines by exact Hnl. f_equal. }
  assert (Hstart : Py.startswith (Py.strip (fm_doc fls b)) "---" = true)
    by (apply fm_doc_strip).
  unfold extract_frontmatter. rewrite Hstart. cbn [negb]. rewrite Hsplit. cbn [tl].
  rewrite find_closing_app by exact Hcl.
  replace (1 + List.length fls - 1) with (List.length fls) by lia.
  rewrite firstn_app, Nat.sub_diag, firstn_all. cbn [firstn]. rewrite app_nil_r.
  replace (1 + List.length fls + 1) with (S (List.length fls + 1)) by lia.
  cbn [skipn]. rewrite skipn_length_app, join_split. split; [reflexivity|]. intro load. reflexivity.
Qed.

Lemma extract_frontmatter_fm_doc_witness :
  extract_frontmatter env_fallback (fm_doc ["name: my-skill"; "description: Use it"] "Body")
  = ExtractOk [(VStr "name", VStr "my-skill"); (VStr "description", VStr "Use it")] "Body".
Proof.
  assert (H : Forall (fun l => Re.all_chars not_newline l = true /\ Py.strip l <> "---")
                     ["name: my-skill"; "description: Use it"])
    by (repeat (apply Forall_cons; [split; [vm_compute; reflexivity | vm_compute; discriminate]|]);
        apply Forall_nil).
  rewrite (proj1 (extract_frontmatter_fm_doc _ "Body" H)).
  vm_compute. reflexivity.
Defined.

Lemma validate_name_needs_str (v : pyval) :
  filter is_error (validate_name v) = [] -> exists s, v = VStr s.
Proof.
  intro H. destruct v; try (eexists; reflexivity); exfalso;
    unfold validate_name in H; destruct (truthy _); cbn in H; discriminate H.
Qed.

Lemma validate_description_needs_str (v : pyval) :
  filter is_error (validate_description v) = [] -> exists s, v = VStr s.
Proof.
  intro H. destruct v; try (eexists; reflexivity); exfalso;
    unfold validate_description in H; destruct (truthy _); cbn in H; discriminate H.
Qed.

Lemma valid_file_result_strs (e : env) (fs : fs_state) (p : string) r :
  validate_skill_file e fs p = Ok r -> valid r = true ->
  (exists s, name r = VStr s) /\ (exists s, description r = VStr s).
Proof.
  unfold validate_skill_file.
  destruct (read_file fs p) as [[c|m]|]; try (intro H; inversion H; subst; discriminate).
  destruct (extract_frontmatter e c) as [fm body|m|x];
    [|intro H; inversion H; subst; discriminate | discriminate].
  destruct (validate_frontmatter_properties fm) as [fmi|x]; cbn [bind]; [|discriminate].
  destruct (display_description (dict_get fm "description")) as [sh|x] eqn:Ed;
    cbn [bind]; [|discriminate].
  intros H Hv. inversion H; subst; clear H. cbn [valid name description] in *.
  apply Nat.eqb_eq, length_zero_iff_nil in Hv.
  rewrite !filter_app in Hv.
  apply app_eq_nil in Hv as [_ Hv]. apply app_eq_nil in Hv as [Hn Hv].
  apply app_eq_nil in Hv as [Hd _].
  split; [exact (validate_name_needs_str _ Hn)|].
  destruct (validate_description_needs_str _ Hd) as [s Hs]. rewrite Hs in Ed.
  unfold display_description in Ed. destruct (truthy (VStr s)).
  - cbn [py_len bind] in Ed. destruct (100 <? String.length s); inversion Ed; eauto.
  - inversion Ed; eauto.
Qed.

Lemma valid_path_result_json (e : env) (fs : fs_state) (p : string) r :
  validate_path e fs p = Some (Ok r) -> valid r = true ->
  exists j, result_to_json r = Ok j.
Proof.
  assert (J : forall r, (exists s, name r = VStr s) -> (exists s, description r = VStr s) ->
                exists j, result_to_json r = Ok j).
  { clear r. intros r [n Hn] [d Hd]. unfold result_to_json. rewrite Hn, Hd.
    cbn [to_json bind]. eexists. reflexivity. }
  unfold validate_path. intros H Hv.
  destruct (fs p) as [[c| |m]|]; try discriminate H; inversion H as [H'];
    clear H.
  - destruct (valid_file_result_strs _ _ _ _ H' Hv). apply J; assumption.
  - revert H' Hv. unfold validate_skill_directory.
    destruct (fs (Py.path_join p SKILL_MD));
      [|intro H; inversion H; subst; discriminate].
    destruct (validate_skill_file e fs (Py.path_join p SKILL_MD)) as [r0|x] eqn:E0;
      cbn [bind]; [|discriminate].
    intros H Hv. inversion H; subst; clear H. cbn [valid] in Hv.
    destruct (valid_file_result_strs _ _ _ _ E0 Hv). apply J; assumption.
  - destruct (valid_file_result_strs _ _ _ _ H' Hv). apply J; assumption.
Qed.

(** X15: [main] exits with status 0 exactly when the path exists and its validation returns a valid result. *)
Theorem main_exit_status (e : env) (fs : fs_state) (prog path : string) (rest : list string) :
  snd (main e fs (prog :: path :: rest)) = 0 <->
  exists r, validate_path e fs path = Some (Ok r) /\ valid r = true.
Proof.
  unfold main. destruct (validate_path e fs path) as [[r|x]|] eqn:Ev.
  - destruct (result_to_json r) as [j|x] eqn:Ej; cbn [snd].
    + split.
      * intro H. exists r. split; [reflexivity|]. destruct (valid r); [reflexivity|discriminate H].
      * intros [r' [H Hv]]. inversion H; subst. rewrite Hv. reflexivity.
    + split; [discriminate|]. intros [r' [H Hv]]. inversion H; subst.
      destruct (valid_path_result_json _ _ _ _ Ev Hv) as [j Hj]. congruence.
  - cbn [snd]. split; [discriminate|]. intros [r [H _]]. discriminate H.
  - cbn [snd]. split; [discriminate|]. intros [r [H _]]. discriminate H.
Qed.

Lemma vfp_ok_str_keys (fm : list (pyval * pyval)) :
  forallb is_str (map fst fm) = true -> exists l, validate_frontmatter_properties fm = Ok l.
Proof.
  intro Hs. unfold validate_frontmatter_properties.
  destruct (filter (fun k => negb (allowed_key k)) (map fst fm)) as [|k0 t] eqn:Ef; [eauto|].
  replace (forallb is_str (k0 :: t)) with true; [eauto|].
  symmetry. apply forallb_forall. intros x Hx. rewrite <- Ef in Hx.
  apply filter_In in Hx as [Hx _]. rewrite forallb_forall in Hs. exact (Hs x Hx).
Qed.

(** X16: when the frontmatter has only string keys, its description is a string, null or absent, and its name cannot be serialized to JSON, [validate_skill_file] returns an invalid result carrying that name but [main] prints nothing and exits with status 1. *)
Theorem main_crashes_on_unserializable_name (e : env) (fs : fs_state)
  (prog path : string) (rest : list string) (c : string) fm body :
  fs path = Some (FFile c) -> extract_frontmatter e c = ExtractOk fm body ->
  forallb is_str (map fst fm) = true ->
  (is_str (dict_get fm "description") = true \/ dict_get fm "description" = VNone) ->
  to_json (dict_get fm "name") = Raise TypeError ->
  (exists r, validate_skill_file e fs path = Ok r /\ valid r = false
             /\ name r = dict_get fm "name")
  /\ main e fs (prog :: path :: rest) = ([], 1).
Proof.
  intros Hfs Hx Hk Hd Hj.
  assert (Hr : read_file fs path = Some (inl c)) by (unfold read_file; rewrite Hfs; reflexivity).
  destruct (vfp_ok_str_keys _ Hk) as [fmi Hfmi].
  assert (Hdd : exists sh, display_description (dict_get fm "description") = Ok sh).
  { destruct Hd as [Hd|Hd]; [|rewrite Hd; eexists; reflexivity].
    destruct (dict_get fm "description"); try discriminate Hd.
    unfold display_description. destruct (truthy (VStr s)); [|eexists; reflexivity].
    cbn [py_len bind]. destruct (100 <? String.length s); eexists; reflexivity. }
  destruct Hdd as [sh Hsh].
  assert (Hv : validate_skill_file e fs path
               = Ok (mkResult
                       (List.length (filter is_error
                          (fmi ++ validate_name (dict_get fm "name")
                           ++ validate_description (dict_get fm "description")
                           ++ validate_body body)) =? 0)
                       path (dict_get fm "name") sh
                       (filter is_error
                          (fmi ++ validate_name (dict_get fm "name")
                           ++ validate_description (dict_get fm "description")
                           ++ validate_body body))
                       ((match yaml e with
                         | None => [warn "frontmatter" MSG_NO_PYYAML]
                         | Some _ => [] end)
                        ++ filter (fun i => negb (is_error i))
                             (fmi ++ validate_name (dict_get fm "name")
                              ++ validate_description (dict_get fm "description")
                              ++ validate_body body)))).
  { unfold validate_skill_file. rewrite Hr, Hx, Hfmi. cbn [bind]. rewrite Hsh.
    reflexivity. }
  split.
  - eexists. split; [exact Hv|]. split; [|reflexivity]. cbn [valid].
    destruct (filter is_error _) eqn:Ef; [|reflexivity]. exfalso.
    rewrite !filter_app in Ef. apply app_eq_nil in Ef as [_ Ef].
    apply app_eq_nil in Ef as [Hn _].
    destruct (validate_name_needs_str _ Hn) as [s Hs]. rewrite Hs in Hj. discriminate Hj.
  - unfold main, validate_path. rewrite Hfs, Hv.
    unfold result_to_json. cbn [name]. rewrite Hj. reflexivity.
Qed.

Lemma main_crashes_on_unserializable_name_witness :
  main date_name_env (single_file_fs "SKILL.md" scenario1_doc)
       ["validate_skill.py"; "SKILL.md"] = ([], 1).
Proof.
  apply (proj2 (main_crashes_on_unserializable_name date_name_env
    (single_file_fs "SKILL.md" scenario1_doc) "validate_skill.py" "SKILL.md" [] scenario1_doc
    [(VStr "name", VDate false); (VStr "description", VStr "Use this when doing X.")]
    (repeat_str 150 "word ")
    eq_refl ltac:(vm_compute; reflexivity) ltac:(vm_compute; reflexivity)
    (or_introl eq_refl) ltac:(vm_compute; reflexivity))).
Defined.

Lemma validate_skill_directory_valid (e : env) (fs : fs_state) (d : string) r :
  validate_skill_directory e fs d = Ok r ->
  valid r = match issues r with [] => true | _ => false end.
Proof.
  unfold validate_skill_directory.
  destruct (fs (Py.path_join d SKILL_MD)); [|intro H; inversion H; reflexivity].
  pose proof (validate_skill_file_valid e fs (Py.path_join d SKILL_MD)) as V.
  destruct (validate_skill_file e fs (Py.path_join d SKILL_MD)) as [r0|x];
    cbn [bind]; [|discriminate].
  intro H; inversion H; subst. exact V.
Qed.

(** X17: [package_skill] returns an archive only after a valid directory validation with no errors, and an exception of the validation propagates after "Validating skill..." is printed. *)
Theorem package_skill_gate (e : env) (fs : fs_state) (resolve : string -> string)
  (write_archive : string -> option string -> list string * outcome (option string))
  (p : string) (out : option string) :
  (forall printed a, package_skill e fs resolve write_archive p out = (printed, Ok (Some a)) ->
     exists r, validate_skill_directory e fs (resolve p) = Ok r
               /\ valid r = true /\ issues r = [])
  /\ (forall x, fs (resolve p) = Some FDir -> fs (Py.path_join (resolve p) SKILL_MD) <> None ->
        validate_skill_directory e fs (resolve p) = Raise x ->
        package_skill e fs resolve write_archive p out = (["Validating skill..."], Raise x)).
Proof.
  unfold package_skill. split.
  - intros printed a.
    destruct (fs (resolve p)) as [[c| |m]|]; try (intro H; inversion H; fail).
    destruct (fs (Py.path_join (resolve p) SKILL_MD)); [|intro H; inversion H].
    destruct (validate_skill_directory e fs (resolve p)) as [r|x] eqn:Ev;
      [|intro H; inversion H].
    destruct (valid r) eqn:Vr; cbn [negb]; [|intro H; inversion H].
    intros _. exists r. split; [reflexivity|]. split; [exact Vr|].
    pose proof (validate_skill_directory_valid _ _ _ _ Ev) as V. rewrite Vr in V.
    destruct (issues r); [reflexivity | discriminate V].
  - intros x Hd Hm Hv. rewrite Hd.
    destruct (fs (Py.path_join (resolve p) SKILL_MD)); [|contradiction].
    rewrite Hv. reflexivity.
Qed.

Lemma package_skill_gate_witness :
  (exists r, validate_skill_directory env_pyyaml (skill_dir_fs "/d" scenario1_doc) "/d" = Ok r
             /\ valid r = true /\ issues r = [])
  /\ package_skill env_pyyaml (skill_dir_fs "/d" int_description_doc) (fun s => s)
       (fun sp _ => ([], Ok (Some (sp ++ ".skill")%string))) "/d" None
     = (["Validating skill..."], Raise TypeError).
Proof.
  split.
  - assert (E : package_skill env_pyyaml (skill_dir_fs "/d" scenario1_doc) (fun s => s)
                  (fun sp _ => ([], Ok (Some (sp ++ ".skill")%string))) "/d" None
                = (fst (package_skill env_pyyaml (skill_dir_fs "/d" scenario1_doc) (fun s => s)
                          (fun sp _ => ([], Ok (Some (sp ++ ".skill")%string))) "/d" None),
                   Ok (Some "/d.skill"))) by (vm_compute; reflexivity).
    exact (proj1 (package_skill_gate _ _ (fun s => s) _ "/d" None) _ _ E).
  - apply (proj2 (package_skill_gate _ _ _ _ _ _)); vm_compute;
      [reflexivity | discriminate | reflexivity].
Defined.

(* ------------------------------------------------------------------ *)
(** ** Amended claims and further properties *)

(* ---- C4 helpers ---- *)
Lemma lstrip_app_l (a y : string) :
  Py.lstrip a <> "" -> Py.lstrip (a ++ y) = (Py.lstrip a ++ y)%string.
Proof.
  induction a as [|c t IH]; intro H; [contradiction H; reflexivity|].
  cbn [append Py.lstrip] in *. destruct (Py.is_space c); [exact (IH H)|reflexivity].
Qed.

Lemma lstrip_cases (a b : string) :
  Py.lstrip (a ++ b) = match Py.lstrip a with
                       | EmptyString => Py.lstrip b
                       | x => (x ++ b)%string end.
Proof.
  induction a as [|c t IH]; [reflexivity|].
  cbn [append Py.lstrip]. destruct (Py.is_space c); [exact IH|reflexivity].
Qed.

Lemma rstrip_cons (c : ascii) (t : string) :
  Py.rstrip (String c t)
  = if Py.is_space c && String.eqb (Py.rstrip t) "" then EmptyString
    else String c (Py.rstrip t).
Proof.
  unfold Py.rstrip. rewrite rev_str_cons, lstrip_cases.
  destruct (Py.lstrip (Py.rev_str t)) as [|d u] eqn:E.
  - change (Py.rev_str EmptyString) with EmptyString. cbn [String.eqb andb].
    cbn [Py.lstrip]. destruct (Py.is_space c); [rewrite andb_true_l|]; reflexivity.
  - rewrite rev_str_app, rev_str_single. cbn [append].
    replace (String.eqb (Py.rev_str (String d u)) "") with false.
    + rewrite andb_false_r. reflexivity.
    + rewrite rev_str_cons. destruct (Py.rev_str u); reflexivity.
Qed.

Lemma prefix_rstrip (p y : string) :
  Re.all_chars (fun c => negb (Py.is_space c)) p = true ->
  String.prefix p (Py.rstrip y) = String.prefix p y.
Proof.
  revert y. induction p as [|a p IH]; intros y Hp.
  - rewrite !prefix_nil. reflexivity.
  - cbn [Re.all_chars] in Hp. apply andb_true_iff in Hp as [Ha Hp].
    destruct y as [|c t]; [reflexivity|].
    rewrite rstrip_cons.
    destruct (Py.is_space c && String.eqb (Py.rstrip t) "") eqn:E.
    + apply andb_true_iff in E as [Ec _]. cbn.
      destruct (ascii_dec a c) as [->|]; [rewrite Ec in Ha; discriminate Ha|reflexivity].
    + cbn [String.prefix]. destruct (ascii_dec a c); [exact (IH t Hp)|reflexivity].
Qed.

Lemma prefix_before_nl (p a u : string) :
  Re.all_chars not_newline p = true ->
  String.prefix p (a ++ String "010"%char u) = String.prefix p a.
Proof.
  revert a. induction p as [|b p IH]; intros a Hp.
  - rewrite !prefix_nil. reflexivity.
  - cbn [Re.all_chars] in Hp. apply andb_true_iff in Hp as [Hb Hp].
    destruct a as [|c a]; cbn [append String.prefix].
    + destruct (ascii_dec b "010"%char) as [->|]; [discriminate Hb|reflexivity].
    + destruct (ascii_dec b c); [exact (IH a Hp)|reflexivity].
Qed.

Lemma strip_first_line (content : string) :
  Py.strip (hd "" (Py.split_nl content)) <> "" ->
  Py.startswith (Py.strip content) "---"
  = Py.startswith (Py.lstrip (hd "" (Py.split_nl content))) "---".
Proof.
  pose proof (join_split content) as J. unfold Py.split_nl in *.
  destruct (split_nl_aux_cons content "") as [l0 [rest Hs]]. rewrite Hs in *.
  cbn [hd]. intro H.
  assert (Hl : Py.lstrip l0 <> "")
    by (intro E; apply H; unfold Py.strip; rewrite E; reflexivity).
  unfold Py.startswith, Py.strip. rewrite prefix_rstrip by reflexivity.
  rewrite <- J. destruct rest as [|l1 rest]; [reflexivity|].
  change (Py.join_nl (l0 :: l1 :: rest)) with (l0 ++ Py.nl ++ Py.join_nl (l1 :: rest))%string.
  rewrite lstrip_app_l by exact Hl. apply prefix_before_nl. reflexivity.
Qed.

(** C4 (amended): for a document whose first line is not blank,
    extraction fails with the missing-frontmatter error exactly when that
    line, without its leading whitespace, does not start with ["---"], and
    with the unterminated error exactly when it does but no later line is
    ["---"] once stripped; in every other case it goes on to parse the
    lines in between.  Documents starting with a blank line are left out:
    there [content.strip()] and the line scan look at different lines. *)
Theorem extract_structural_errors (e : env) (content : string) :
  Py.strip (hd "" (Py.split_nl content)) <> "" ->
  (extract_frontmatter e content = ExtractErr MSG_FM_MISSING <->
     Py.startswith (Py.lstrip (hd "" (Py.split_nl content))) "---" = false)
  /\ (extract_frontmatter e content = ExtractErr MSG_FM_UNTERMINATED <->
       Py.startswith (Py.lstrip (hd "" (Py.split_nl content))) "---" = true
       /\ forallb (fun l => negb (String.eqb (Py.strip l) "---"))
                  (tl (Py.split_nl content)) = true).
Proof.
  intro Hf. rewrite <- (strip_first_line _ Hf).
  unfold extract_frontmatter.
  destruct (Py.startswith (Py.strip content) "---") eqn:S; cbn [negb].
  - rewrite <- (find_closing_none _ 1).
    destruct (find_closing (tl (Py.split_nl content)) 1) as [fe|].
    + destruct (yaml e) as [load|]; [destruct (load _) as [[]|m|t]|].
      all: unfold MSG_FM_MISSING, MSG_FM_UNTERMINATED, MSG_FM_NOT_MAPPING.
      all: split; split; intro H; [inversion H | discriminate H
                                  | inversion H | destruct H as [_ H]; discriminate H].
    + split; split; [intro H; inversion H | intro H; discriminate H
                     | intro H; split; reflexivity | intros _; reflexivity].
  - split; split; [reflexivity | reflexivity | intro H; inversion H
                   | intros [H _]; discriminate H].
Qed.

Lemma extract_structural_errors_witness :
  (Py.strip (hd "" (Py.split_nl padded_delimiters_doc)) <> ""
   /\ Py.startswith (Py.lstrip (hd "" (Py.split_nl padded_delimiters_doc))) "---" = true)
  /\ extract_frontmatter env_pyyaml padded_delimiters_doc <> ExtractErr MSG_FM_MISSING.
Proof.
  assert (H : Py.strip (hd "" (Py.split_nl padded_delimiters_doc)) <> "")
    by (vm_compute; discriminate).
  split; [split; [exact H | vm_compute; reflexivity]|].
  intro E. apply (proj1 (proj1 (extract_structural_errors env_pyyaml _ H))) in E.
  vm_compute in E. discriminate E.
Defined.

(** C5 (amended): when SKILL.md exists, [validate_skill_directory] returns
    what [validate_skill_file] returns on it (or raises what it raises),
    with the reference warnings of the file's text appended, whatever the
    outcome of extraction; these are warnings of field ["references"];
    when extraction fails, the file result is [valid = false] with null
    name and description and the single frontmatter error. *)
Theorem directory_reference_pass (e : env) (fs : fs_state) (d : string) :
  fs (Py.path_join d SKILL_MD) <> None ->
  match validate_skill_directory e fs d,
        validate_skill_file e fs (Py.path_join d SKILL_MD) with
  | Ok r', Ok r =>
      valid r' = valid r /\ skill_path r' = skill_path r /\ name r' = name r
      /\ description r' = description r /\ issues r' = issues r
      /\ warnings r' = warnings r ++ match read_file fs (Py.path_join d SKILL_MD) with
                                   | Some (inl c) => reference_warnings fs d c
                                   | _ => []
                                   end
  | Raise x, Raise y => x = y
  | _, _ => False
  end
  /\ (forall c, Forall (fun i => level i = "warning" /\ field i = "references")
                       (reference_warnings fs d c))
  /\ (forall c m, read_file fs (Py.path_join d SKILL_MD) = Some (inl c) ->
        extract_frontmatter e c = ExtractErr m ->
        validate_skill_file e fs (Py.path_join d SKILL_MD)
        = Ok (early_failure (Py.path_join d SKILL_MD) "frontmatter" m)).
Proof.
  intro Hex. split; [|split].
  - unfold validate_skill_directory.
    destruct (fs (Py.path_join d SKILL_MD)) eqn:Efs; [|contradiction].
    destruct (validate_skill_file e fs (Py.path_join d SKILL_MD)) as [r|x]; cbn [bind];
      [|reflexivity].
    cbn [valid skill_path name description issues warnings].
    repeat split.
  - intro c. apply reference_warnings_are_warnings.
  - intros c m Hr Hx. unfold validate_skill_file. rewrite Hr, Hx. reflexivity.
Qed.

Lemma directory_reference_pass_witness :
  single_file_fs "d/SKILL.md" no_frontmatter_doc (Py.path_join "d" SKILL_MD) <> None
  /\ validate_skill_file env_pyyaml (single_file_fs "d/SKILL.md" no_frontmatter_doc)
       (Py.path_join "d" SKILL_MD)
     = Ok (early_failure (Py.path_join "d" SKILL_MD) "frontmatter" MSG_FM_MISSING)
  /\ validate_skill_directory env_pyyaml (single_file_fs "d/SKILL.md" no_frontmatter_doc) "d"
     = Ok (mkResult false "d/SKILL.md" VNone VNone [err "frontmatter" MSG_FM_MISSING]
             (reference_warnings (single_file_fs "d/SKILL.md" no_frontmatter_doc) "d"
                no_frontmatter_doc)).
Proof.
  assert (H : single_file_fs "d/SKILL.md" no_frontmatter_doc (Py.path_join "d" SKILL_MD)
              <> None) by (vm_compute; discriminate).
  pose proof (directory_reference_pass env_pyyaml
                (single_file_fs "d/SKILL.md" no_frontmatter_doc) "d" H) as [P1 [_ P3]].
  assert (F : validate_skill_file env_pyyaml (single_file_fs "d/SKILL.md" no_frontmatter_doc)
                (Py.path_join "d" SKILL_MD)
              = Ok (early_failure (Py.path_join "d" SKILL_MD) "frontmatter" MSG_FM_MISSING))
    by (apply (P3 no_frontmatter_doc MSG_FM_MISSING); vm_compute; reflexivity).
  split; [exact H|]. split; [exact F|].
  rewrite F in P1.
  destruct (validate_skill_directory env_pyyaml _ "d") as [r'|x]; [|destruct P1].
  destruct r' as [v sp n ds is ws]. cbn in P1.
  destruct P1 as [-> [-> [-> [-> [-> ->]]]]]. reflexivity.
Defined.







Lemma find_dict_set_same (d : list (string * string)) (k x : string) :
  find (key_is k) (dict_set d k x) = Some (k, x).
Proof.
  induction d as [|[a b] t IH]; cbn [dict_set find].
  - unfold key_is. cbn [fst]. rewrite String.eqb_refl. reflexivity.
  - destruct (String.eqb k a) eqn:E; cbn [find]; unfold key_is in *; cbn [fst].
    + rewrite String.eqb_refl. reflexivity.
    + rewrite String.eqb_sym, E. exact IH.
Qed.

Lemma find_dict_set_other (d : list (string * string)) (k k' x : string) :
  k' <> k -> find (key_is k) (dict_set d k' x) = find (key_is k) d.
Proof.
  intro Hk. assert (E' : String.eqb k' k = false) by (apply String.eqb_neq; exact Hk).
  induction d as [|[a b] t IH]; cbn [dict_set find]; unfold key_is in *; cbn [fst].
  - rewrite E'. reflexivity.
  - destruct (String.eqb k' a) eqn:E; cbn [find fst].
    + apply String.eqb_eq in E. subst a. rewrite E'. reflexivity.
    + destruct (String.eqb a k); [reflexivity|exact IH].
Qed.

Lemma fold_non_key_lines (ls : list string) (fm : list (string * string)) (cur : string) vs :
  Forall (fun x => key_match x = None) ls ->
  fold_left fb_step ls (mkFb fm (Some cur) vs)
  = mkFb fm (Some cur) (vs ++ map Py.strip (filter is_indented ls)).
Proof.
  revert vs. induction ls as [|x ls IH]; intros vs H.
  - cbn. rewrite app_nil_r. reflexivity.
  - inversion H as [|? ? Hx Hls]; subst. cbn [fold_left filter].
    unfold fb_step at 2. rewrite Hx. cbn [current_key].
    destruct (is_indented x); cbn [fb_frontmatter current_key current_value_lines map].
    + rewrite IH by exact Hls. rewrite <- app_assoc. reflexivity.
    + exact (IH vs Hls).
Qed.

Lemma fold_keeps_value (post : list string) (k val : string) :
  Forall (fun x => forall v', key_match x <> Some (k, v')) post ->
  forall st, find (key_is k) (fb_frontmatter st) = Some (k, val) ->
  (forall c, current_key st = Some c -> c <> k) ->
  find (key_is k) (fb_flush (fold_left fb_step post st)) = Some (k, val).
Proof.
  induction post as [|x post IH]; intros Hp st Hf Hc.
  - cbn [fold_left]. unfold fb_flush.
    destruct (current_key st) as [c|] eqn:Ec; [|exact Hf].
    rewrite find_dict_set_other by exact (Hc c eq_refl). exact Hf.
  - inversion Hp as [|? ? Hx Hpost]; subst. cbn [fold_left]. apply IH; [exact Hpost| |].
    + unfold fb_step. destruct (key_match x) as [[k2 v2]|].
      * cbn [fb_frontmatter]. unfold fb_flush.
        destruct (current_key st) as [c|] eqn:Ec; [|exact Hf].
        rewrite find_dict_set_other by exact (Hc c eq_refl). exact Hf.
      * destruct (current_key st); [destruct (is_indented x)|]; exact Hf.
    + unfold fb_step. destruct (key_match x) as [[k2 v2]|] eqn:Ek.
      * cbn [current_key]. intros c Hc2. inversion Hc2; subst c. intro E; subst k2.
        first [exact (Hx v2 Ek) | exact (Hx v2 eq_refl)].
      * destruct (current_key st) as [c0|] eqn:Ec; [destruct (is_indented x)|];
          cbn [current_key]; rewrite ?Ec; exact Hc.
Qed.

(** X12: wherever a key line sits in the frontmatter lines, the fallback
    parser maps its key to the key line's value followed by the stripped
    indented lines up to the next key line (other lines are skipped),
    joined with newlines and normalized, provided no later key line
    reuses the key. *)
Theorem fallback_block_value (pre ls post : list string) (l k v : string) :
  key_match l = Some (k, v) ->
  Forall (fun x => key_match x = None) ls ->
  match post with [] => True | l' :: _ => key_match l' <> None end ->
  Forall (fun x => forall v', key_match x <> Some (k, v')) post ->
  find (key_is k) (_parse_simple_frontmatter (pre ++ l :: ls ++ post))
  = Some (k, _normalize_yaml_value
               (Py.join_nl (v :: map Py.strip (filter is_indented ls)))).
Proof.
  intros Hl Hls Hhd Hpost. unfold _parse_simple_frontmatter.
  rewrite fold_left_app. cbn [fold_left]. rewrite fold_left_app.
  set (st0 := fold_left fb_step pre (mkFb [] None [])).
  replace (fb_step st0 l) with (mkFb (fb_flush st0) (Some k) [v])
    by (unfold fb_step; rewrite Hl; reflexivity).
  rewrite fold_non_key_lines by exact Hls. cbn [app].
  destruct post as [|l' post].
  - cbn [fold_left]. unfold fb_flush at 1. cbn [current_key fb_frontmatter current_value_lines].
    apply find_dict_set_same.
  - inversion Hpost as [|? ? Hx Hpost']; subst.
    destruct (key_match l') as [[k2 v2]|] eqn:Ek; [|contradiction Hhd; reflexivity].
    cbn [fold_left]. apply fold_keeps_value; [exact Hpost'| |].
    + unfold fb_step. rewrite Ek. cbn [fb_frontmatter]. unfold fb_flush.
      cbn [current_key fb_frontmatter current_value_lines]. apply find_dict_set_same.
    + unfold fb_step. rewrite Ek. cbn [current_key]. intros c Hc. inversion Hc; subst c.
      intro E; subst k2. first [exact (Hx v2 Ek) | exact (Hx v2 eq_refl)].
Qed.

Lemma fallback_block_value_witness :
  find (key_is "description")
    (_parse_simple_frontmatter
       ["name: my-skill"; "description: Use this"; "  when X"; "# note"; "  and Y";
        "license: MIT"])
  = Some ("description", ("Use this" ++ Py.nl ++ "when X" ++ Py.nl ++ "and Y")%string).
Proof.
  change ["name: my-skill"; "description: Use this"; "  when X"; "# note"; "  and Y";
          "license: MIT"]
    with (["name: my-skill"] ++ "description: Use this"
          :: ["  when X"; "# note"; "  and Y"] ++ ["license: MIT"]).
  rewrite (fallback_block_value ["name: my-skill"] ["  when X"; "# note"; "  and Y"]
             ["license: MIT"] "description: Use this" "description" "Use this").
  - vm_compute. reflexivity.
  - vm_compute. reflexivity.
  - repeat constructor.
  - vm_compute. discriminate.
  - constructor; [|constructor]. vm_compute. discriminate.
Defined.


